(** * Intent resolution pipeline of the customer-support chatbot

    A shallow embedding of the decision logic of
    [chatbot_core.py], [dataset_integration.py], [openai_chatbot.py] and
    [enhanced_chatbot_with_dataset.py], followed by the properties that
    the design document states about it.

    Conventions of the embedding.
    - Python [str] is [string]; the texts of the program are ASCII, and
      [lower], [strip] and [in] are modelled on ASCII text.
    - Python floats that carry a confidence or a latency are exact
      rationals ([Q]): the program only builds them from the literals
      0.0, 0.5, 0.7, 0.8, 0.9, 0.95, 1.0, from [n * 0.2] and [n / 3.0],
      and only compares them, and those comparisons agree with the
      comparisons of the exact values.
    - A float that a division produces only to be reported (an average,
      a percentage) is the exact quotient, which Python rounds to the
      nearest double; what is stated of such a value is a bound or an
      equation that the rounding preserves.
    - A dict whose iteration order is observable (the intent catalog,
      [enhanced_responses]) is an association list in insertion order; a
      dict used as a counter table is a [gmap].
    - What the outside world contributes to one call (the random draw of
      [random.choice], the clock, the remote completion call) is passed
      in explicitly. *)

From stdpp Require Import base list strings gmap pretty.
From Stdlib Require Import Ascii QArith Qminmax Qabs.

Local Open Scope Q_scope.
Local Open Scope nat_scope.

(** ** Python primitives *)

Module Py.

(** [str.lower] on ASCII text. *)
Definition lower_ascii (c : ascii) : ascii :=
  let n := nat_of_ascii c in
  if (65 <=? n) && (n <=? 90) then ascii_of_nat (n + 32) else c.

Fixpoint lower (s : string) : string :=
  match s with
  | EmptyString => EmptyString
  | String c s' => String (lower_ascii c) (lower s')
  end.

(** [str.isspace] for one ASCII character: tab, newline, vertical tab,
    form feed, carriage return, the four separators 0x1c-0x1f, space. *)
Definition isspace (c : ascii) : bool :=
  let n := nat_of_ascii c in
  ((9 <=? n) && (n <=? 13)) || ((28 <=? n) && (n <=? 32)).

Fixpoint lstrip (s : string) : string :=
  match s with
  | EmptyString => EmptyString
  | String c s' => if isspace c then lstrip s' else s
  end.

Definition rstrip (s : string) : string :=
  String.rev (lstrip (String.rev s)).

(** [s.strip()] *)
Definition strip (s : string) : string := rstrip (lstrip s).

(** Truth value of a [str]: non-empty. *)
Definition truthy_str (s : string) : bool :=
  match s with EmptyString => false | String _ _ => true end.

(** Truth value of a 3-tuple: a tuple is false only when it has no
    component, so a 3-tuple is true whatever it holds. *)
Definition truthy_tuple3 {A B C : Type} (t : A * B * C) : bool := true.

(** [needle in hay] for strings: [needle] occurs as a substring. *)
Fixpoint str_in (needle hay : string) : bool :=
  String.prefix needle hay
  || match hay with
     | EmptyString => false
     | String _ hay' => str_in needle hay'
     end.

(** [random.choice(seq)]: the drawn index is [draw mod len(seq)];
    an empty sequence raises [IndexError] ([None]). *)
Definition choice {A : Type} (draw : nat) (seq : list A) : option A :=
  match seq with
  | [] => None
  | _ :: _ => seq !! (draw mod length seq)
  end.

(** [seq[-n:]] for [n > 0]: the last [n] elements, all of them when
    there are fewer. *)
Definition last_n {A : Type} (n : nat) (seq : list A) : list A :=
  drop (length seq - n) seq.

(** [d.get(k, default)] on a dict kept in insertion order. *)
Fixpoint dict_get {V : Type} (d : list (string * V)) (k : string) (default : V) : V :=
  match d with
  | [] => default
  | (k', v) :: d' => if String.eqb k' k then v else dict_get d' k default
  end.

(** [k in d] *)
Definition dict_mem {V : Type} (d : list (string * V)) (k : string) : bool :=
  existsb (fun kv => String.eqb (fst kv) k) d.

(** [d[k]], raising [KeyError] ([None]) on a missing key. *)
Fixpoint dict_lookup {V : Type} (d : list (string * V)) (k : string) : option V :=
  match d with
  | [] => None
  | (k', v) :: d' => if String.eqb k' k then Some v else dict_lookup d' k
  end.

(** [sum(xs)] of numbers *)
Definition sum (xs : list Q) : Q := fold_left Qplus xs 0%Q.

(** Rounding of a non-negative exact value to the nearest integer,
    ties to even, as the formatting of a number does. *)
Definition round_half_even (q : Q) : Z :=
  let n := Qnum q in
  let d := Z.pos (Qden q) in
  let fl := (n / d)%Z in
  let r2 := (2 * (n mod d))%Z in
  if (r2 <? d)%Z then fl
  else if (d <? r2)%Z then (fl + 1)%Z
  else if Z.even fl then fl else (fl + 1)%Z.

Fixpoint zero_pad (width : nat) (s : string) : string :=
  match width with
  | 0 => s
  | S w => if String.length s <? width then zero_pad w ("0" +:+ s) else s
  end.

(** [f"{q:.<digits>f}"] for [digits > 0]. *)
Definition format_fixed (digits : nat) (q : Q) : string :=
  let scale := (10 ^ Z.of_nat digits)%Z in
  let scaled := round_half_even (Qabs q * inject_Z scale) in
  let sign := if Qle_bool 0 q then "" else "-" in
  sign +:+ pretty (Z.to_N (scaled / scale))
       +:+ "." +:+ zero_pad digits (pretty (Z.to_N (scaled mod scale))).

(** [d[k] = v] on a dict kept in insertion order: an existing key keeps
    its place, a new key goes last. *)
Fixpoint dict_set {V : Type} (d : list (string * V)) (k : string) (v : V)
    : list (string * V) :=
  match d with
  | [] => [(k, v)]
  | (k', v') :: d' =>
      if String.eqb k' k then (k', v) :: d' else (k', v') :: dict_set d' k v
  end.

(** [max(seq, key=key)]: the first element whose key is maximal;
    [None] stands for the [ValueError] on an empty sequence. *)
Definition max_by {A : Type} (key : A -> nat) (seq : list A) : option A :=
  match seq with
  | [] => None
  | x :: seq' =>
      Some (fold_left (fun best y => if key best <? key y then y else best) seq' x)
  end.

(** [min(seq, key=key)]: the first element whose key is minimal. *)
Definition min_by {A : Type} (key : A -> nat) (seq : list A) : option A :=
  match seq with
  | [] => None
  | x :: seq' =>
      Some (fold_left (fun best y => if key y <? key best then y else best) seq' x)
  end.

(** The values held by the dicts that are read through [.get]: a
    [str], [None] or a float. *)
Inductive value :=
| VStr (s : string)
| VNone
| VFloat (q : Q).

(** [f"{v}"]. How a float prints is not part of the model: the
    rendering is a parameter. *)
Definition format_value (float_str : Q -> string) (v : value) : string :=
  match v with
  | VStr s => s
  | VNone => "None"
  | VFloat q => float_str q
  end.

End Py.

(** ** dataset_integration.py *)

Module DatasetIntegrator.

(** One labelled dialog of the corpus: [{"input", "output", "intent"}]. *)
Record dialog := Dialog {
  d_input : string;
  d_output : string;
  d_intent : string
}.

(** [self.intent_mapping] *)
Definition intent_mapping : list (string * list string) :=
  [ ("greeting", ["hello"; "hi"; "hey"; "good morning"; "good afternoon"; "good evening"]);
    ("goodbye", ["bye"; "goodbye"; "see you"; "farewell"; "take care"]);
    ("thanks", ["thank you"; "thanks"; "appreciate"; "grateful"]);
    ("order_status", ["order"; "status"; "tracking"; "shipped"; "delivery"; "where is my order"]);
    ("shipping", ["shipping"; "delivery"; "shipping time"; "how long"; "when will it arrive"]);
    ("returns", ["return"; "refund"; "exchange"; "cancel"; "return policy"]);
    ("payment", ["payment"; "billing"; "charge"; "credit card"; "payment method"; "invoice"]);
    ("product_info", ["product"; "specifications"; "features"; "size"; "color"; "availability"]);
    ("contact", ["contact"; "phone"; "email"; "support"; "help"; "speak to someone"]);
    ("complaint", ["complaint"; "problem"; "issue"; "unhappy"; "dissatisfied"; "angry"]) ].

Definition _create_sample_dataset : list dialog :=
  [ Dialog "Hello" "Hi there! How can I help you today?" "greeting";
    Dialog "Hi" "Hello! Welcome to our customer support. What can I assist you with?" "greeting";
    Dialog "Good morning" "Good morning! How can I make your day better today?" "greeting";
    Dialog "Hey there" "Hey! I'm here to help. What questions do you have?" "greeting";

    Dialog "Where is my order?" "I can help you track your order! Please provide your order number and I'll check the status for you." "order_status";
    Dialog "Order status" "To check your order status, please provide your order number." "order_status";
    Dialog "Track my package" "I'd be happy to help you track your package. What's your order number?" "order_status";
    Dialog "Is my order shipped?" "Let me check your order status. Please provide your order number." "order_status";

    Dialog "How long does shipping take?" "We offer standard shipping (3-5 business days) and express shipping (1-2 business days). Which option would you like to know more about?" "shipping";
    Dialog "Shipping time" "Shipping times vary. Standard delivery is 3-5 days, express is 1-2 days." "shipping";
    Dialog "When will it arrive?" "Our shipping options are standard (3-5 days) and express (1-2 days)." "shipping";
    Dialog "Delivery time" "We have two shipping options: standard (3-5 days) and express (1-2 days). Which would you prefer?" "shipping";

    Dialog "I want to return this" "We offer a 30-day return policy. Items must be in original condition with packaging. Would you like me to help you start a return?" "returns";
    Dialog "Return policy" "Returns are accepted within 30 days of purchase. Please keep your receipt and original packaging." "returns";
    Dialog "How do I return?" "You can return items within 30 days for a full refund. Do you need assistance with the return process?" "returns";
    Dialog "Refund" "Our return policy allows returns within 30 days. Items must be in original condition." "returns";

    Dialog "What payment methods do you accept?" "We accept all major credit cards, PayPal, and bank transfers. How can I help with your payment?" "payment";
    Dialog "Payment options" "You can pay with Visa, MasterCard, American Express, PayPal, or bank transfer." "payment";
    Dialog "How can I pay?" "Multiple payment methods are available, including credit cards and PayPal." "payment";
    Dialog "Billing" "I can help with billing questions. What specific payment issue can I assist with?" "payment";

    Dialog "Tell me about this product" "I'd be happy to help with product information. Which product are you interested in?" "product_info";
    Dialog "Product details" "Let me get you the details on that product. What specific information do you need?" "product_info";
    Dialog "Specifications" "I can provide product specifications and availability. What product are you asking about?" "product_info";
    Dialog "Is this in stock?" "Let me check the availability for you. Which product are you interested in?" "product_info";

    Dialog "How can I contact support?" "You can reach our support team at support@company.com or call 1-800-SUPPORT. Our team is available 24/7!" "contact";
    Dialog "Phone number" "For immediate assistance, call us at 1-800-SUPPORT or email support@company.com." "contact";
    Dialog "Email support" "Our support team is available 24/7. Call 1-800-SUPPORT or email support@company.com." "contact";
    Dialog "Speak to someone" "I can help you with most questions, but if you need to speak to a human agent, call 1-800-SUPPORT." "contact";

    Dialog "I have a complaint" "I'm sorry to hear you're having an issue. Please tell me more about the problem so I can help resolve it." "complaint";
    Dialog "This is terrible" "I understand your frustration. Let me help you resolve this issue. What specific problem are you experiencing?" "complaint";
    Dialog "I'm not happy" "I'm sorry you're not satisfied. Please share the details of your concern so I can assist you better." "complaint";
    Dialog "This is unacceptable" "I apologize for the inconvenience. Let me help you address this issue. What happened?" "complaint";

    Dialog "Thanks for your help" "You're welcome! Is there anything else I can help you with?" "goodbye";
    Dialog "Thank you" "You're welcome! Feel free to reach out if you need any more assistance." "goodbye";
    Dialog "Bye" "Goodbye! Have a great day!" "goodbye";
    Dialog "See you later" "See you later! Take care!" "goodbye" ].

(** [load_kaggle_dataset] followed by [get_training_data]: building the
    sample list cannot raise, so the training data is that list. *)
Definition get_training_data : list dialog := _create_sample_dataset.

Definition generate_variations (base_input intent : string) : list string :=
  let variations := [base_input] in
  if String.eqb intent "greeting" then
    variations ++
      [ base_input +:+ " there";
        base_input +:+ "!";
        "Hey " +:+ Py.lower base_input;
        "Good morning " +:+ Py.lower base_input ]
  else if String.eqb intent "order_status" then
    variations ++
      [ "Where is " +:+ base_input;
        "Status of " +:+ base_input;
        "Track " +:+ base_input;
        "Check " +:+ base_input ]
  else if String.eqb intent "shipping" then
    variations ++
      [ "How long for " +:+ base_input;
        "When will " +:+ base_input +:+ " arrive";
        "Delivery time for " +:+ base_input;
        "Shipping duration for " +:+ base_input ]
  else variations.

(** [get_intent_examples] *)
Definition get_intent_examples (training_data : list dialog) (intent : string)
    : list dialog :=
  filter (fun example => d_intent example = intent) training_data.

(** One value of [enhanced_data['intents']]. *)
Record intent_entry := IntentEntry {
  ie_examples : list string;
  ie_responses : list string;
  ie_keywords : list string
}.

(** The dict returned by [create_enhanced_training_set]. *)
Record enhanced_data := EnhancedData {
  ed_intents : list (string * intent_entry);
  ed_total_examples : nat;
  ed_intent_distribution : list (string * nat);
  ed_created_at : string
}.

(** [if intent not in d: d[intent] = {"examples": [], "responses": [],
    "keywords": self.intent_mapping.get(intent, [])}] *)
Definition ensure_intent (d : list (string * intent_entry)) (intent : string)
    : list (string * intent_entry) :=
  if Py.dict_mem d intent then d
  else d ++ [(intent, IntentEntry [] [] (Py.dict_get intent_mapping intent []))].

(** [d[intent]['examples'].append(example)] followed by
    [d[intent]['responses'].append(response)]. A missing key would raise
    [KeyError]; every call below comes after [ensure_intent]. *)
Fixpoint append_example (d : list (string * intent_entry))
    (intent example response : string) : list (string * intent_entry) :=
  match d with
  | [] => []
  | (k, e) :: d' =>
      if String.eqb k intent
      then (k, IntentEntry (ie_examples e ++ [example]) (ie_responses e ++ [response])
                 (ie_keywords e)) :: d'
      else (k, e) :: append_example d' intent example response
  end.

(** The body of the first loop of [create_enhanced_training_set]. *)
Definition training_step (d : list (string * intent_entry)) (example : dialog)
    : list (string * intent_entry) :=
  let intent := d_intent example in
  let d1 := ensure_intent d intent in
  let d2 := append_example d1 intent (d_input example) (d_output example) in
  let variations := generate_variations (d_input example) intent in
  fold_left
    (fun acc variation => append_example acc intent variation (d_output example))
    (tail variations) d2.

Definition create_enhanced_training_set (now : string) (training_data : list dialog)
    : enhanced_data :=
  let intents := fold_left training_step training_data [] in
  let '(distribution, total) :=
    fold_left
      (fun acc item =>
         let '(distribution, total) := acc in
         let '(intent, data) := item in
         (Py.dict_set distribution intent (length (ie_examples data)),
          total + length (ie_examples data)))
      intents ([], 0) in
  EnhancedData intents total distribution now.

(** [get_random_example]; the result [None] is the [None] the method
    returns when no example qualifies. *)
Definition get_random_example (draw : nat) (training_data : list dialog)
    (intent : option string) : option dialog :=
  let examples :=
    match intent with
    | Some i => if Py.truthy_str i then get_intent_examples training_data i
                else training_data
    | None => training_data
    end in
  match examples with
  | [] => None
  | _ :: _ => Py.choice draw examples
  end.

(** The dict returned by [analyze_dataset]. *)
Record analysis := Analysis {
  an_total_examples : nat;
  an_intent_distribution : list (string * nat);
  an_average_examples_per_intent : Q;
  an_most_common_intent : option string;
  an_least_common_intent : option string
}.

(** The counting loop of [analyze_dataset]; every dialog of the model
    carries its intent, so the ['unknown'] default is never used. *)
Definition count_intents (training_data : list dialog) : list (string * nat) :=
  fold_left
    (fun distribution example =>
       let intent := d_intent example in
       Py.dict_set distribution intent (Py.dict_get distribution intent 0 + 1))
    training_data [].

(** [average_examples_per_intent] is the exact quotient of the two
    integers. *)
Definition analyze_dataset (training_data : list dialog) : analysis :=
  let distribution := count_intents training_data in
  match distribution with
  | [] => Analysis (length training_data) distribution 0 None None
  | _ :: _ =>
      let get := fun intent => Py.dict_get distribution intent 0 in
      Analysis (length training_data) distribution
        (Qdiv (inject_Z (Z.of_nat (fold_left Nat.add (map snd distribution) 0)))
              (inject_Z (Z.of_nat (length distribution))))
        (Py.max_by get (map fst distribution))
        (Py.min_by get (map fst distribution))
  end.

End DatasetIntegrator.

(** ** What the outside world contributes to one call *)

Module Env.

(** Outcome of [client.chat.completions.create(...)] followed by
    reading [choices[0].message.content]: the text, or an exception
    (authentication, network, malformed response). *)
Inductive completion :=
| Completed (content : string)
| Raised.

Record world := World {
  draw : nat;                 (* the draw behind [random.choice] *)
  now : string;               (* [datetime.now().isoformat()] *)
  elapsed : Q;                (* [(datetime.now() - start_time).total_seconds()] *)
  create : list (string * string) -> completion   (* the remote call, on [messages] *)
}.

End Env.

(** ** chatbot_core.py *)

Module CustomerSupportChatbot.
Import Env.

Record intent_data := IntentData {
  keywords : list string;
  responses : list string
}.

Definition _initialize_intents : list (string * intent_data) :=
  [ ("greeting", IntentData
       ["hi"; "hello"; "hey"; "good morning"; "good afternoon"; "good evening"]
       [ "Hi! Welcome to our customer support. How can I help you today?";
         "Hello! I'm here to assist you with any questions or concerns.";
         "Hi there! Welcome to our support center. What can I help you with?";
         "Hello! How can I make your day better today?" ]);
    ("order_status", IntentData
       ["order"; "status"; "tracking"; "shipped"; "delivery"; "where is my order"; "track my order"]
       [ "I can help you track your order! Please provide your order number and I'll check the status for you.";
         "To check your order status, I'll need your order number. What's your order number?";
         "I can look up your order status. Please share your order number with me.";
         "Let me help you track your order. Could you please provide your order number?" ]);
    ("shipping", IntentData
       ["shipping"; "delivery"; "shipping time"; "how long"; "when will it arrive"; "delivery time"]
       [ "We offer standard shipping (3-5 business days) and express shipping (1-2 business days). Which option would you like to know more about?";
         "Shipping times vary by location. Standard delivery is 3-5 days, express is 1-2 days.";
         "We have two shipping options: standard (3-5 days) and express (1-2 days). Which would you prefer?";
         "Standard shipping takes 3-5 business days, while express shipping takes 1-2 business days." ]);
    ("returns", IntentData
       ["return"; "refund"; "exchange"; "cancel"; "return policy"; "how to return"]
       [ "We offer a 30-day return policy. Items must be in original condition with packaging. Would you like me to help you start a return?";
         "Returns are accepted within 30 days of purchase. Please keep your receipt and original packaging.";
         "You can return items within 30 days. I can help you start the return process if you'd like.";
         "Our return policy allows returns within 30 days. Items must be in original condition." ]);
    ("payment", IntentData
       ["payment"; "billing"; "charge"; "credit card"; "payment method"; "invoice"; "billing issue"]
       [ "We accept all major credit cards, PayPal, and bank transfers. How can I help with your payment?";
         "You can pay with Visa, MasterCard, American Express, PayPal, or bank transfer.";
         "We accept multiple payment methods including credit cards and PayPal. What payment issue can I help with?";
         "For payment assistance, we accept credit cards, PayPal, and bank transfers." ]);
    ("product_info", IntentData
       ["product"; "specifications"; "features"; "size"; "color"; "availability"; "product details"]
       [ "I'd be happy to help with product information. Which product are you interested in?";
         "Let me get you the details on that product. What specific information do you need?";
         "I can provide product specifications and availability. What product are you asking about?";
         "I'd love to help with product details. Which product would you like to know more about?" ]);
    ("contact", IntentData
       ["contact"; "phone"; "email"; "support"; "help"; "speak to someone"; "human agent"]
       [ "You can reach our support team at support@company.com or call 1-800-SUPPORT. Our team is available 24/7!";
         "For immediate assistance, call us at 1-800-SUPPORT or email support@company.com.";
         "Our support team is available 24/7. Call 1-800-SUPPORT or email support@company.com.";
         "You can contact us at support@company.com or call 1-800-SUPPORT for immediate help." ]);
    ("account", IntentData
       ["account"; "login"; "password"; "profile"; "sign up"; "register"; "account issue"]
       [ "I can help with account issues. Are you having trouble logging in or creating an account?";
         "For account support, please provide your email address and I'll assist you.";
         "I can help with account-related questions. What specific issue are you experiencing?";
         "Let me help you with your account. What's the problem you're facing?" ]);
    ("complaint", IntentData
       ["complaint"; "problem"; "issue"; "dissatisfied"; "unhappy"; "bad experience"]
       [ "I'm sorry to hear about your experience. Let me help resolve this issue for you. Can you tell me more details?";
         "I apologize for any inconvenience. I'm here to help make things right. What happened?";
         "I'm sorry you're having a problem. Let me assist you in resolving this issue.";
         "I understand your concern. Let me help you with this issue right away." ]);
    ("goodbye", IntentData
       ["bye"; "goodbye"; "thanks"; "thank you"; "see you"; "farewell"]
       [ "You're welcome! Have a great day!";
         "Thank you for contacting us! Feel free to reach out anytime.";
         "Happy to help! Take care!";
         "You're welcome! Don't hesitate to contact us if you need anything else." ]) ].

(** The dict built by [_create_response]. *)
Record response := Response {
  text : string;
  intent : string;
  confidence : Q;
  response_time : Q;
  timestamp : string
}.

(** One entry of [self.conversation_history]. *)
Record conversation := Conversation {
  c_timestamp : string;
  c_session_id : string;
  c_user_input : string;
  c_intent : string;
  c_response : string;
  c_confidence : Q;
  c_response_time : Q
}.

(** [self.analytics] *)
Record analytics := Analytics {
  total_requests : nat;
  successful_responses : nat;
  failed_responses : nat;
  intent_counts : gmap string nat;
  response_times : list Q
}.

(** The attributes of a [CustomerSupportChatbot] object that the
    methods below read or write. *)
Record state := State {
  conversation_history : list conversation;
  analytics_ : analytics;
  intents : list (string * intent_data)
}.

Definition zero_analytics : analytics :=
  Analytics 0 0 0 ∅ [].

(** [__init__] *)
Definition init : state :=
  State [] zero_analytics _initialize_intents.

(** The inner loop of [_find_best_intent]: one point per keyword that
    occurs in the lowered text. *)
Definition keyword_score (kws : list string) (user_input_lower : string) : nat :=
  fold_left
    (fun score keyword => if Py.str_in keyword user_input_lower then score + 1 else score)
    kws 0.

(** One round of the outer loop of [_find_best_intent]. *)
Definition best_step (user_input_lower : string)
    (best : nat * string) (item : string * intent_data) : nat * string :=
  let '(best_match_score, best_intent) := best in
  let '(intent_name, data) := item in
  let score := keyword_score (keywords data) user_input_lower in
  if best_match_score <? score then (score, intent_name)
  else (best_match_score, best_intent).

Definition _find_best_intent (catalog : list (string * intent_data))
    (user_input : string) : string * Q :=
  let user_input_lower := Py.lower user_input in
  let '(best_match_score, best_intent) :=
    fold_left (best_step user_input_lower) catalog (0, "fallback") in
  let confidence :=
    if 0 <? best_match_score
    then Qmin (inject_Z (Z.of_nat best_match_score) / 3.0) 1.0
    else 0.0%Q in
  (best_intent, confidence).

Definition fallback_responses : list string :=
  [ "I'm sorry, I didn't quite understand that. Could you please rephrase your question?";
    "I'm not sure I can help with that specific question. Could you try asking in a different way?";
    "I don't have information about that. Let me connect you with a human agent who can help better.";
    "That's an interesting question! I might not have the exact answer, but I can connect you with our support team.";
    "I'm still learning! Could you try asking about order status, shipping, returns, or product information?" ].

(** [None] stands for an exception raised by the call. *)
Definition _get_fallback_response (w : world) : option string :=
  Py.choice (draw w) fallback_responses.

Definition _generate_response (w : world) (catalog : list (string * intent_data))
    (intent user_input : string) : option string :=
  match Py.dict_lookup catalog intent with
  | Some data => Py.choice (draw w) (responses data)
  | None => _get_fallback_response w
  end.

Definition _create_response (w : world) (text intent : string)
    (confidence response_time : Q) : response :=
  Response text intent confidence response_time (now w).

(** [session_id or 'default'] *)
Definition or_default (session_id : option string) : string :=
  match session_id with
  | Some s => if Py.truthy_str s then s else "default"
  | None => "default"
  end.

Definition _record_interaction (w : world) (st : state)
    (user_input intent response_text : string) (confidence response_time : Q)
    (session_id : option string) : state :=
  let a := analytics_ st in
  let a' :=
    Analytics
      (total_requests a + 1)
      (successful_responses a + 1)
      (failed_responses a)
      (<[intent := default 0 (intent_counts a !! intent) + 1]> (intent_counts a))
      (response_times a ++ [response_time]) in
  State
    (conversation_history st ++
       [Conversation (now w) (or_default session_id) user_input intent
          response_text confidence response_time])
    a' (intents st).

(** The [except Exception] branch of [process_message]. *)
Definition record_failure (st : state) : state :=
  let a := analytics_ st in
  State (conversation_history st)
    (Analytics (total_requests a) (successful_responses a)
       (failed_responses a + 1) (intent_counts a) (response_times a))
    (intents st).

Definition process_message (w : world) (st : state)
    (user_input : string) (session_id : option string) : response * state :=
  if negb (Py.truthy_str (Py.strip user_input)) then
    (_create_response w "Please enter a message so I can help you!" "empty_input" 0.0 0.0, st)
  else
    let '(intent, confidence) := _find_best_intent (intents st) user_input in
    match _generate_response w (intents st) intent user_input with
    | Some response_text =>
        let response_time := elapsed w in
        let st' := _record_interaction w st user_input intent response_text
                     confidence response_time session_id in
        (_create_response w response_text intent confidence response_time, st')
    | None =>
        (_create_response w "I'm sorry, I encountered an error. Please try again." "error" 0.0 0.0,
         record_failure st)
    end.

Definition clear_history (st : state) : state :=
  State [] zero_analytics (intents st).

(** The dict returned by [get_analytics]. *)
Record report := Report {
  r_total_requests : nat;
  r_successful_responses : nat;
  r_failed_responses : nat;
  r_success_rate : string;
  r_average_response_time : string;
  r_intent_distribution : gmap string nat;
  r_recent_conversations : list conversation
}.

(** The number behind the [success_rate] entry. *)
Definition success_rate (a : analytics) : Q :=
  if 0 <? total_requests a
  then (inject_Z (Z.of_nat (successful_responses a))
          / inject_Z (Z.of_nat (total_requests a))) * 100
  else 0.

(** [None]: the division by [len(response_times)] raised
    [ZeroDivisionError]. *)
Definition get_analytics (st : state) : option report :=
  let a := analytics_ st in
  avg_response_time ←
    (if 0 <? total_requests a then
       match response_times a with
       | [] => None
       | _ :: _ =>
           Some (Py.sum (response_times a)
                   / inject_Z (Z.of_nat (length (response_times a))))%Q
       end
     else Some 0%Q);
  Some (Report
          (total_requests a)
          (successful_responses a)
          (failed_responses a)
          (Py.format_fixed 1 (success_rate a) +:+ "%")
          (Py.format_fixed 2 avg_response_time +:+ "s")
          (intent_counts a)
          (Py.last_n 10 (conversation_history st))).

End CustomerSupportChatbot.


(** ** openai_chatbot.py *)

Module OpenAIChatbot.
Import Env.

(** One entry of [self.conversation_history]. *)
Record exchange := Exchange {
  x_user : string;
  x_assistant : string;
  x_timestamp : string
}.

(** [self.client] is [None] or a client object; only its presence is
    read here. *)
Record state := State {
  client : bool;
  conversation_history : list exchange
}.

(** The dict returned by [get_openai_response]. *)
Record response := Response {
  text : string;
  intent : string;
  confidence : Q;
  response_time : Q;
  model : string
}.

Definition newline : string := String (ascii_of_nat 10) EmptyString.

Definition _get_system_prompt : string :=
  "You are a helpful customer support assistant for an e-commerce company. " +:+ newline +:+
  "        You can help with:" +:+ newline +:+
  "        - Order status and tracking" +:+ newline +:+
  "        - Shipping and delivery information" +:+ newline +:+
  "        - Returns and refunds" +:+ newline +:+
  "        - Payment methods and billing" +:+ newline +:+
  "        - Product information" +:+ newline +:+
  "        - Account issues" +:+ newline +:+
  "        - General customer support" +:+ newline +:+
  "        " +:+ newline +:+
  "        Be friendly, helpful, and professional. If you don't know something specific, " +:+ newline +:+
  "        offer to connect the customer with a human agent. Keep responses concise but informative.".

Definition fallback_responses : list string :=
  [ "I'm here to help! I can assist with order status, shipping, returns, payment, and product information.";
    "I'd be happy to help you with your inquiry. What specific information do you need?";
    "I can help with various customer support topics. How can I assist you today?";
    "I'm ready to help! Please let me know what you need assistance with." ].

(** [None] stands for an exception raised by the call. *)
Definition _get_fallback_response (w : world) (user_message : string) : option response :=
  chosen ← Py.choice (draw w) fallback_responses;
  Some (Response chosen "fallback" 0.5 0.0 "fallback").

(** The [messages] argument of the remote call. *)
Definition build_messages (st : state) (user_message context : string)
    : list (string * string) :=
  [ ("system", _get_system_prompt);
    ("user", "Context: " +:+ context +:+ newline +:+ "User: " +:+ user_message) ]
  ++ concat (map (fun entry => [("user", x_user entry); ("assistant", x_assistant entry)])
               (Py.last_n 6 (conversation_history st))).

Definition get_openai_response (w : world) (st : state)
    (user_message context : string) : option (response * state) :=
  if negb (client st) then
    r ← _get_fallback_response w user_message; Some (r, st)
  else
    match create w (build_messages st user_message context) with
    | Completed content =>
        let bot_response := Py.strip content in
        let st' :=
          State (client st)
            (conversation_history st ++ [Exchange user_message bot_response (now w)]) in
        Some (Response bot_response "openai_response" 0.95 0.0 "gpt-3.5-turbo", st')
    | Raised =>
        (* except Exception: the error is logged *)
        r ← _get_fallback_response w user_message; Some (r, st)
    end.

(** The dict returned by [analyze_sentiment]. *)
Record sentiment := Sentiment {
  s_sentiment : string;
  s_confidence : Q
}.

Definition analyze_sentiment (w : world) (st : state) (text : string) : sentiment :=
  if negb (client st) then Sentiment "neutral" 0.5
  else
    match create w
            [ ("system", "Analyze the sentiment of the following text. Respond with only: positive, negative, or neutral");
              ("user", text) ] with
    | Completed content => Sentiment (Py.lower (Py.strip content)) 0.8
    | Raised => Sentiment "neutral" 0.5
    end.

(** The text built by the loop of [generate_summary]; an entry is a dict
    read through [.get]. *)
Definition conversation_text (float_str : Q -> string)
    (conversation : list (list (string * Py.value))) : string :=
  fold_left
    (fun conv_text entry =>
       (conv_text
          +:+ ("User: " +:+ Py.format_value float_str (Py.dict_get entry "user" (Py.VStr ""))
               +:+ newline))
         +:+ ("Assistant: "
              +:+ Py.format_value float_str (Py.dict_get entry "assistant" (Py.VStr ""))
              +:+ newline +:+ newline))
    conversation "".

Definition generate_summary (w : world) (float_str : Q -> string) (st : state)
    (conversation : list (list (string * Py.value))) : string :=
  if negb (client st) || match conversation with [] => true | _ :: _ => false end
  then "No conversation to summarize."
  else
    match create w
            [ ("system", "Summarize this customer support conversation in 2-3 sentences. Focus on the main issues and resolutions.");
              ("user", conversation_text float_str conversation) ] with
    | Completed content => Py.strip content
    | Raised => "Unable to generate summary."
    end.

Definition get_conversation_history (st : state) : list exchange :=
  conversation_history st.

Definition clear_history (st : state) : state :=
  State (client st) [].

End OpenAIChatbot.

(** ** enhanced_chatbot_with_dataset.py *)

Module EnhancedChatbotWithDataset.
Import Env.

(** One entry of a list of [self.enhanced_responses]. *)
Record example := Example {
  e_input : string;
  e_output : string;
  e_variations : list string
}.

(** One entry of [analytics['conversation_history']]. *)
Record turn := Turn {
  t_timestamp : string;
  t_user_id : option string;
  t_user_input : string;
  t_bot_response : string;
  t_source : string;
  t_confidence : Q
}.

(** [self.analytics] *)
Record analytics := Analytics {
  total_requests : nat;
  openai_requests : nat;
  core_requests : nat;
  intent_distribution : gmap string nat;
  response_times : list Q;
  user_satisfaction : list Q;
  conversation_history : list turn
}.

Record state := State {
  core_chatbot : CustomerSupportChatbot.state;
  openai_chatbot : OpenAIChatbot.state;
  intent_mapping : list (string * list string);   (* [dataset_integrator.intent_mapping] *)
  training_data : list DatasetIntegrator.dialog;
  enhanced_responses : list (string * list example);
  analytics_ : analytics
}.

(** The dict returned by [process_message]; [intent] may be [None]. *)
Record response := Response {
  text : string;
  intent : option string;
  confidence : Q;
  response_time : Q;
  source : string;
  model : string
}.

(** What [process_message] reads of the dict returned by
    [_process_with_enhanced_dataset]. *)
Record local_response := LocalResponse {
  l_text : string;
  l_intent : option string;
  l_confidence : Q
}.

(** [if intent not in d: d[intent] = []] then [d[intent].append(x)] *)
Fixpoint dict_append {V : Type} (d : list (string * list V)) (k : string) (x : V)
    : list (string * list V) :=
  match d with
  | [] => [(k, [x])]
  | (k', xs) :: d' =>
      if String.eqb k' k then (k', xs ++ [x]) :: d'
      else (k', xs) :: dict_append d' k x
  end.

Definition _load_enhanced_responses (training_data : list DatasetIntegrator.dialog)
    : list (string * list example) :=
  fold_left
    (fun enhanced_responses ex =>
       let intent := DatasetIntegrator.d_intent ex in
       dict_append enhanced_responses intent
         (Example (DatasetIntegrator.d_input ex) (DatasetIntegrator.d_output ex)
            (DatasetIntegrator.generate_variations (DatasetIntegrator.d_input ex) intent)))
    training_data [].

Definition zero_analytics : analytics := Analytics 0 0 0 ∅ [] [] [].

(** [__init__], given whether the completion client could be set up. *)
Definition init (client : bool) : state :=
  let training_data := DatasetIntegrator.get_training_data in
  State CustomerSupportChatbot.init
    (OpenAIChatbot.State client [])
    DatasetIntegrator.intent_mapping
    training_data
    (_load_enhanced_responses training_data)
    zero_analytics.

(** The running best of [_find_best_intent_match]:
    [(best_intent, best_confidence, best_response)]. *)
Definition best := (option string * Q * string)%type.

(** [confidence > best_confidence] on floats. *)
Definition gt (x y : Q) : bool := negb (Qle_bool x y).

(** [if confidence > best_confidence: best_... = ...] *)
Definition improve (intent : string) (ex : example) (confidence : Q) (b : best) : best :=
  let '(best_intent, best_confidence, best_response) := b in
  if gt confidence best_confidence
  then (Some intent, confidence, e_output ex)
  else b.

(** [sum(1 for keyword in keywords if keyword in user_input)] *)
Definition keyword_matches (keywords : list string) (user_input : string) : nat :=
  length (filter (fun keyword => Py.str_in keyword user_input = true) keywords).

(** The body of the inner loop of [_find_best_intent_match]. *)
Definition example_step (mapping : list (string * list string)) (user_input intent : string)
    (b : best) (ex : example) : best :=
  (* direct match *)
  let b1 :=
    if Py.str_in user_input (Py.lower (e_input ex))
    then improve intent ex 0.9 b else b in
  (* variations *)
  let b2 :=
    fold_left
      (fun acc variation =>
         if Py.str_in user_input (Py.lower variation)
         then improve intent ex 0.8 acc else acc)
      (e_variations ex) b1 in
  (* keyword matching *)
  let keywords := Py.dict_get mapping intent [] in
  let matches := keyword_matches keywords user_input in
  if 0 <? matches
  then improve intent ex (Qmin 0.7 (inject_Z (Z.of_nat matches) * 0.2)) b2
  else b2.

Definition _find_best_intent_match (st : state) (user_input : string) : best :=
  fold_left
    (fun acc item =>
       let '(intent, examples) := item in
       fold_left (example_step (intent_mapping st) user_input intent) examples acc)
    (enhanced_responses st)
    (None, 0.0%Q, "").

Definition _process_with_enhanced_dataset (w : world) (st : state) (user_input : string)
    : local_response * state :=
  let user_input_lower := Py.lower user_input in
  let best_match := _find_best_intent_match st user_input_lower in
  if Py.truthy_tuple3 best_match then
    let '(intent, confidence, response_text) := best_match in
    (LocalResponse response_text intent confidence, st)
  else
    (* Fallback to core chatbot *)
    let '(r, core') :=
      CustomerSupportChatbot.process_message w (core_chatbot st) user_input None in
    (LocalResponse (CustomerSupportChatbot.text r)
       (Some (CustomerSupportChatbot.intent r))
       (CustomerSupportChatbot.confidence r),
     State core' (openai_chatbot st) (intent_mapping st) (training_data st)
       (enhanced_responses st) (analytics_ st)).

Definition capacity : nat := 100.

(** [_add_to_history], on the history list alone. *)
Definition push_history (history : list turn) (entry : turn) : list turn :=
  let history' := history ++ [entry] in
  if capacity <? length history' then Py.last_n capacity history' else history'.

Definition with_analytics (st : state) (a : analytics) : state :=
  State (core_chatbot st) (openai_chatbot st) (intent_mapping st) (training_data st)
    (enhanced_responses st) a.

Definition _add_to_history (w : world) (st : state)
    (user_input bot_response source : string) (confidence : Q)
    (user_id : option string) : state :=
  let a := analytics_ st in
  with_analytics st
    (Analytics (total_requests a) (openai_requests a) (core_requests a)
       (intent_distribution a) (response_times a) (user_satisfaction a)
       (push_history (conversation_history a)
          (Turn (now w) user_id user_input bot_response source confidence))).

Definition bump_total (a : analytics) : analytics :=
  Analytics (total_requests a + 1) (openai_requests a) (core_requests a)
    (intent_distribution a) (response_times a) (user_satisfaction a)
    (conversation_history a).

Definition bump_openai (a : analytics) : analytics :=
  Analytics (total_requests a) (openai_requests a + 1) (core_requests a)
    (intent_distribution a) (response_times a) (user_satisfaction a)
    (conversation_history a).

Definition bump_core (a : analytics) : analytics :=
  Analytics (total_requests a) (openai_requests a) (core_requests a + 1)
    (intent_distribution a) (response_times a) (user_satisfaction a)
    (conversation_history a).

Definition add_response_time (t : Q) (a : analytics) : analytics :=
  Analytics (total_requests a) (openai_requests a) (core_requests a)
    (intent_distribution a) (response_times a ++ [t]) (user_satisfaction a)
    (conversation_history a).

(** The [try] block of [process_message]; [None] when it raised, in
    which case nothing had been written yet. *)
Definition try_openai (w : world) (st : state) (user_input : string)
    (user_id : option string) : option (response * state) :=
  '(r, openai') ← OpenAIChatbot.get_openai_response w (openai_chatbot st) user_input "";
  let st1 :=
    State (core_chatbot st) openai' (intent_mapping st) (training_data st)
      (enhanced_responses st) (bump_openai (analytics_ st)) in
  let st2 :=
    _add_to_history w st1 user_input (OpenAIChatbot.text r) "openai"
      (OpenAIChatbot.confidence r) user_id in
  let response_time := elapsed w in
  let st3 := with_analytics st2 (add_response_time response_time (analytics_ st2)) in
  Some (Response (OpenAIChatbot.text r) (Some (OpenAIChatbot.intent r))
          (OpenAIChatbot.confidence r) response_time "openai" (OpenAIChatbot.model r),
        st3).

(** The part of [process_message] after the [try] block. *)
Definition process_core (w : world) (st : state) (user_input : string)
    (user_id : option string) : response * state :=
  let '(r, st1) := _process_with_enhanced_dataset w st user_input in
  let st2 := with_analytics st1 (bump_core (analytics_ st1)) in
  let st3 := _add_to_history w st2 user_input (l_text r) "core" (l_confidence r) user_id in
  let response_time := elapsed w in
  let st4 := with_analytics st3 (add_response_time response_time (analytics_ st3)) in
  (Response (l_text r) (l_intent r) (l_confidence r) response_time
     "core_enhanced" "dataset_trained",
   st4).

Definition process_message (w : world) (st : state) (user_input : string)
    (user_id : option string) (use_openai : bool) : response * state :=
  let st0 := with_analytics st (bump_total (analytics_ st)) in
  let attempt :=
    if use_openai && OpenAIChatbot.client (openai_chatbot st0)
    then try_openai w st0 user_input user_id
    else None in
  match attempt with
  | Some result => result
  | None => process_core w st0 user_input user_id
  end.

(** The dict returned by [get_analytics]. *)
Record report := Report {
  rp_total_requests : nat;
  rp_openai_requests : nat;
  rp_core_requests : nat;
  rp_openai_usage_percentage : Q;
  rp_average_response_time : Q;
  rp_intent_distribution : gmap string nat;
  rp_conversation_count : nat;
  rp_dataset_examples : nat;
  rp_enhanced_responses : nat
}.

Definition get_analytics (st : state) : report :=
  let a := analytics_ st in
  let total_requests := total_requests a in
  let response_times := response_times a in
  Report total_requests (openai_requests a) (core_requests a)
    (if 0 <? total_requests
     then Qmult (Qdiv (inject_Z (Z.of_nat (openai_requests a)))
                   (inject_Z (Z.of_nat total_requests))) 100
     else 0%Q)
    (match response_times with
     | [] => 0%Q
     | _ :: _ => Qdiv (Py.sum response_times)
                   (inject_Z (Z.of_nat (length response_times)))
     end)
    (intent_distribution a)
    (length (conversation_history a))
    (length (training_data st))
    (length (enhanced_responses st)).

Definition get_sentiment_analysis (w : world) (st : state) (text : string)
    : OpenAIChatbot.sentiment :=
  if OpenAIChatbot.client (openai_chatbot st)
  then OpenAIChatbot.analyze_sentiment w (openai_chatbot st) text
  else OpenAIChatbot.Sentiment "neutral" 0.5.

(** The dict appended by [_add_to_history], as [generate_summary] reads
    it. *)
Definition turn_dict (t : turn) : list (string * Py.value) :=
  [ ("timestamp", Py.VStr (t_timestamp t));
    ("user_id", match t_user_id t with Some u => Py.VStr u | None => Py.VNone end);
    ("user_input", Py.VStr (t_user_input t));
    ("bot_response", Py.VStr (t_bot_response t));
    ("source", Py.VStr (t_source t));
    ("confidence", Py.VFloat (t_confidence t)) ].

Definition generate_conversation_summary (w : world) (float_str : Q -> string)
    (st : state) : string :=
  if OpenAIChatbot.client (openai_chatbot st)
     && match conversation_history (analytics_ st) with [] => false | _ :: _ => true end
  then
    let conversations := Py.last_n 10 (conversation_history (analytics_ st)) in
    OpenAIChatbot.generate_summary w float_str (openai_chatbot st)
      (map turn_dict conversations)
  else "No conversation history available for summary.".

Definition get_dataset_statistics (st : state) : DatasetIntegrator.analysis :=
  DatasetIntegrator.analyze_dataset (training_data st).

(** One entry of [test_results['test_details']]. *)
Record test_detail := TestDetail {
  td_input : string;
  td_output : string;
  td_intent : option string;
  td_confidence : Q;
  td_status : string
}.

(** The dict returned by [test_enhanced_responses]. *)
Record test_results := TestResults {
  total_tests : nat;
  passed_tests : nat;
  failed_tests : nat;
  test_details : list test_detail
}.

Definition test_cases : list string :=
  [ "Hello there!";
    "Where is my order #12345?";
    "How long does shipping take?";
    "I want to return this item";
    "What payment methods do you accept?";
    "Tell me about this product";
    "How can I contact support?";
    "I have a complaint about my order";
    "Thanks for your help!";
    "Goodbye!" ].

(** The body of the loop of [test_enhanced_responses]; [clock n] is the
    world of the call made for test number [n]. [process_message]
    returns in every case, so the [except] branch is not entered. *)
Definition test_step (clock : nat -> world) (acc : test_results * state)
    (test_input : string) : test_results * state :=
  let '(results, st) := acc in
  let '(response, st') :=
    process_message (clock (total_tests results)) st test_input None false in
  let passed := gt (confidence response) 0.3 in
  (TestResults
     (total_tests results + 1)
     (if passed then passed_tests results + 1 else passed_tests results)
     (if passed then failed_tests results else failed_tests results + 1)
     (test_details results ++
        [TestDetail test_input (text response) (intent response) (confidence response)
           (if passed then "PASS" else "FAIL")]),
   st').

Definition test_enhanced_responses (clock : nat -> world) (st : state)
    : test_results * state :=
  fold_left (test_step clock) test_cases (TestResults 0 0 0 [], st).

End EnhancedChatbotWithDataset.

(** ** streamlit_app.py *)

Module StreamlitApp.

(** What the "Clear History" button does to the chatbot object:
    [enhanced_chatbot.core_chatbot.clear_history()] and
    [enhanced_chatbot.openai_chatbot.clear_history()]. The list of
    displayed messages, which it also empties, belongs to the page. *)
Definition clear_history_button (st : EnhancedChatbotWithDataset.state)
    : EnhancedChatbotWithDataset.state :=
  EnhancedChatbotWithDataset.State
    (CustomerSupportChatbot.clear_history (EnhancedChatbotWithDataset.core_chatbot st))
    (OpenAIChatbot.clear_history (EnhancedChatbotWithDataset.openai_chatbot st))
    (EnhancedChatbotWithDataset.intent_mapping st)
    (EnhancedChatbotWithDataset.training_data st)
    (EnhancedChatbotWithDataset.enhanced_responses st)
    (EnhancedChatbotWithDataset.analytics_ st).

End StreamlitApp.

(** ** Notions used to state the properties *)

(** Sequences of calls on the two chatbot objects. *)
Module Runs.
Import Env.

(** A call on a [CustomerSupportChatbot]. *)
Inductive core_call :=
| CoreProcess (w : world) (user_input : string) (session_id : option string)
| CoreClear
| CoreAnalytics.

Definition core_step (st : CustomerSupportChatbot.state) (c : core_call)
    : CustomerSupportChatbot.state :=
  match c with
  | CoreProcess w user_input session_id =>
      snd (CustomerSupportChatbot.process_message w st user_input session_id)
  | CoreClear => CustomerSupportChatbot.clear_history st
  | CoreAnalytics => st
  end.

Definition core_run (st : CustomerSupportChatbot.state) (calls : list core_call)
    : CustomerSupportChatbot.state :=
  fold_left core_step calls st.

(** A [process_message] call on an [EnhancedChatbotWithDataset]. *)
Record request := Request {
  q_world : world;
  q_user_input : string;
  q_user_id : option string;
  q_use_openai : bool
}.

Definition enhanced_step (st : EnhancedChatbotWithDataset.state) (q : request)
    : EnhancedChatbotWithDataset.state :=
  snd (EnhancedChatbotWithDataset.process_message
         (q_world q) st (q_user_input q) (q_user_id q) (q_use_openai q)).

Definition enhanced_run (st : EnhancedChatbotWithDataset.state) (qs : list request)
    : EnhancedChatbotWithDataset.state :=
  fold_left enhanced_step qs st.

(** A world whose remote call raises whatever it is asked. *)
Definition failing_world (draw : nat) (now : string) (elapsed : Q) : world :=
  World draw now elapsed (fun _ => Raised).

End Runs.

(** The three tiers of the corpus matcher, as the design document words
    them: what one corpus example is worth for a given input. *)
Module Tiers.
Import EnhancedChatbotWithDataset.

(** The input is a substring of the example's lowered input text. *)
Definition exact_hit (user_input : string) (ex : example) : bool :=
  Py.str_in user_input (Py.lower (e_input ex)).

(** The input is a substring of one of the example's lowered variations. *)
Definition variation_hit (user_input : string) (ex : example) : bool :=
  existsb (fun variation => Py.str_in user_input (Py.lower variation)) (e_variations ex).

(** [min(0.7, hits * 0.2)] *)
Definition keyword_confidence (hits : nat) : Q :=
  Qmin 0.7 (inject_Z (Z.of_nat hits) * 0.2).

Definition hits (mapping : list (string * list string)) (user_input intent : string) : nat :=
  keyword_matches (Py.dict_get mapping intent []) user_input.

(** Confidence of the highest tier that fires for the example, [0]
    when none does. *)
Definition tier_confidence (mapping : list (string * list string))
    (user_input : string) (entry : string * example) : Q :=
  let '(intent, ex) := entry in
  if exact_hit user_input ex then 0.9
  else if variation_hit user_input ex then 0.8
  else if 0 <? hits mapping user_input intent
       then keyword_confidence (hits mapping user_input intent)
       else 0.

(** The corpus in iteration order: every example with its intent. *)
Definition corpus_entries (enhanced_responses : list (string * list example))
    : list (string * example) :=
  concat (map (fun item => map (pair (fst item)) (snd item)) enhanced_responses).

End Tiers.

(** Invariants of the baseline chatbot's state. *)
Module Invariants.
Import CustomerSupportChatbot.

(** Every intent of a catalog has at least one candidate response. *)
Definition stocked (catalog : list (string * intent_data)) : Prop :=
  Forall (fun item => responses (snd item) <> []) catalog.

(** The invariant behind the success rate: the total and the success
    counter move together, and one latency sample is kept per counted
    request. *)
Definition counted (st : state) : Prop :=
  total_requests (analytics_ st) = successful_responses (analytics_ st)
  /\ length (response_times (analytics_ st)) = total_requests (analytics_ st).

(** The invariant behind the failure counter: on a stocked catalog no
    call fails. *)
Definition unfailing (st : state) : Prop :=
  stocked (intents st) /\ failed_responses (analytics_ st) = 0.

(** The request takes the [except] branch of [process_message]: its
    input is not blank and [_generate_response], the one call of the
    [try] block that can raise, raises. *)
Definition raises (w : Env.world) (catalog : list (string * intent_data))
    (user_input : string) : bool :=
  Py.truthy_str (Py.strip user_input)
  && match _generate_response w catalog
             (fst (_find_best_intent catalog user_input)) user_input with
     | Some _ => false
     | None => true
     end.

(** The failures of a sequence of calls on a chatbot with the given
    catalog: one for every request that raises, counted from the last
    [clear_history] on. *)
Definition failures_step (catalog : list (string * intent_data))
    (n : nat) (c : Runs.core_call) : nat :=
  match c with
  | Runs.CoreProcess w user_input _ => if raises w catalog user_input then n + 1 else n
  | Runs.CoreClear => 0
  | Runs.CoreAnalytics => n
  end.

Definition failures (catalog : list (string * intent_data))
    (calls : list Runs.core_call) : nat :=
  fold_left (failures_step catalog) calls 0.

End Invariants.

(** * Properties *)

(** ** Surface variations *)

Section Variations.
Import DatasetIntegrator.

(** C9: [generate_variations] is a function of the base text and the
    intent label alone, and returns a finite ordered sequence that
    begins with the base text. For the intents greeting, order_status
    and shipping the base text is followed by four variants, in a fixed
    order, which is within the three to four the design states; for
    every other intent nothing follows the base text. Greeting variants
    append [" there"] or ["!"] or prefix the lowered text; order-status
    variants prefix a task verb; shipping variants prefix a phrase, one
    of them also appending [" arrive"]. *)
Theorem generate_variations_exact (base_input intent : string) :
  generate_variations base_input "greeting" =
    [ base_input; base_input +:+ " there"; base_input +:+ "!";
      "Hey " +:+ Py.lower base_input; "Good morning " +:+ Py.lower base_input ]
  /\ generate_variations base_input "order_status" =
    [ base_input; "Where is " +:+ base_input; "Status of " +:+ base_input;
      "Track " +:+ base_input; "Check " +:+ base_input ]
  /\ generate_variations base_input "shipping" =
    [ base_input; "How long for " +:+ base_input;
      "When will " +:+ base_input +:+ " arrive";
      "Delivery time for " +:+ base_input; "Shipping duration for " +:+ base_input ]
  /\ (if bool_decide (intent ∈ ["greeting"; "order_status"; "shipping"])
      then length (generate_variations base_input intent) = 5
      else generate_variations base_input intent = [base_input])
  /\ head (generate_variations base_input intent) = Some base_input
  /\ (let variants := tail (generate_variations base_input intent) in
      if bool_decide (intent ∈ ["greeting"; "order_status"; "shipping"])
      then 3 <= length variants <= 4
      else variants = []).
Proof.
  assert (Hcases :
    if bool_decide (intent ∈ ["greeting"; "order_status"; "shipping"])
    then exists v1 v2 v3 v4,
           generate_variations base_input intent = [base_input; v1; v2; v3; v4]
    else generate_variations base_input intent = [base_input]).
  { unfold generate_variations.
    case_bool_decide as Hin.
    - repeat (apply elem_of_cons in Hin as [-> | Hin]; [cbn; eauto|]).
      by apply elem_of_nil in Hin.
    - destruct (String.eqb_spec intent "greeting") as [->|_].
      { exfalso; apply Hin; set_solver. }
      destruct (String.eqb_spec intent "order_status") as [->|_].
      { exfalso; apply Hin; set_solver. }
      destruct (String.eqb_spec intent "shipping") as [->|_].
      { exfalso; apply Hin; set_solver. }
      reflexivity. }
  do 3 (split; [reflexivity|]).
  destruct (bool_decide (intent ∈ ["greeting"; "order_status"; "shipping"])).
  - destruct Hcases as (v1 & v2 & v3 & v4 & ->). cbn. repeat split; lia.
  - rewrite Hcases. cbn. repeat split.
Qed.

End Variations.

(** ** The resolution entry point on single requests *)

Section Orchestrator.
Import Env EnhancedChatbotWithDataset.

(** A string made of whitespace characters only. *)
Lemma lstrip_blank (s : string) :
  Forall (fun c => Py.isspace c = true) (String.list_ascii_of_string s) ->
  Py.lstrip s = "".
Proof.
  induction s as [|c s IH]; simpl; [done|].
  intros H. apply Forall_cons in H as [Hc Hs].
  rewrite Hc. by apply IH.
Qed.

Lemma strip_blank (s : string) :
  Forall (fun c => Py.isspace c = true) (String.list_ascii_of_string s) ->
  Py.strip s = "".
Proof.
  intros H. unfold Py.strip. by rewrite (lstrip_blank s H).
Qed.

(** The baseline entry point guards against blank input: it answers with
    the fixed prompt and leaves the whole state, counters included, as it
    was. *)
Lemma core_process_message_blank (w : world) (st : CustomerSupportChatbot.state)
    (user_input : string) (session_id : option string) :
  Forall (fun c => Py.isspace c = true) (String.list_ascii_of_string user_input) ->
  CustomerSupportChatbot.process_message w st user_input session_id =
    (CustomerSupportChatbot.Response "Please enter a message so I can help you!"
       "empty_input" 0.0 0.0 (now w), st).
Proof.
  intros H. unfold CustomerSupportChatbot.process_message.
  by rewrite (strip_blank _ H).
Qed.

(** The truth test on the matcher's tuple always succeeds, so
    [_process_with_enhanced_dataset] hands back the matcher's tuple,
    whatever it holds, and never reaches the baseline chatbot. *)
Lemma process_with_enhanced_dataset_never_falls_back
    (w : world) (st : state) (user_input : string) :
  _process_with_enhanced_dataset w st user_input =
    (let '(intent, confidence, response_text) :=
       _find_best_intent_match st (Py.lower user_input) in
     LocalResponse response_text intent confidence, st).
Proof.
  unfold _process_with_enhanced_dataset, Py.truthy_tuple3.
  by destruct (_find_best_intent_match st (Py.lower user_input)) as [[? ?] ?].
Qed.

(** C1 (the code at the failing input): with the generative strategy
    disabled, the non-empty input ["xyz"] finds no candidate in the
    corpus matcher, and [process_message] returns that empty candidate
    (empty text, no intent, confidence 0.0) without consulting the
    keyword classifier, which would have resolved it to ["fallback"]. *)
Theorem unmatched_input_yields_unresolved_result (w : world) :
  let st := init false in
  let '(r, st') := process_message w st "xyz" None false in
  _find_best_intent_match st (Py.lower "xyz") = (None, 0.0%Q, "")
  /\ text r = "" /\ intent r = None /\ confidence r = 0.0%Q
  /\ source r = "core_enhanced"
  /\ core_chatbot st' = core_chatbot st
  /\ fst (CustomerSupportChatbot._find_best_intent
            CustomerSupportChatbot._initialize_intents "xyz") = "fallback".
Proof. vm_compute. repeat split. Qed.

(** C2 (the code at the failing input): the enhanced entry point has no
    guard for empty input. The empty string is a substring of the first
    corpus example, so the request is answered as a greeting with
    confidence 0.9 and is counted in [total_requests] and
    [core_requests]. *)
Theorem empty_input_is_answered_as_greeting (w : world) :
  let '(r, st') := process_message w (init false) "" None false in
  text r = "Hi there! How can I help you today?"
  /\ intent r = Some "greeting" /\ confidence r = 0.9%Q
  /\ source r = "core_enhanced"
  /\ total_requests (analytics_ st') = 1
  /\ core_requests (analytics_ st') = 1.
Proof. vm_compute. repeat split. Qed.

(** The same for an input of one space. *)
Lemma blank_input_is_answered_as_greeting (w : world) :
  let '(r, st') := process_message w (init false) " " None false in
  text r = "Good morning! How can I make your day better today?"
  /\ intent r = Some "greeting" /\ confidence r = 0.9%Q
  /\ total_requests (analytics_ st') = 1.
Proof. vm_compute. repeat split. Qed.

(** [random.choice] on a non-empty sequence returns one of its elements. *)
Lemma choice_nonempty {A : Type} (draw : nat) (seq : list A) :
  seq <> [] -> exists x, Py.choice draw seq = Some x /\ x ∈ seq.
Proof.
  intros Hne. unfold Py.choice. destruct seq as [|a seq']; [done|].
  destruct (lookup_lt_is_Some_2 (a :: seq') (draw mod length (a :: seq'))) as [x Hx].
  { apply Nat.mod_upper_bound. cbn [length]. lia. }
  exists x. split; [done|]. by eapply list_elem_of_lookup_2.
Qed.

(** The adapter never raises: with or without a client, and whether the
    remote call returns or raises, it returns a response. *)
Lemma get_openai_response_returns
    (w : world) (st : OpenAIChatbot.state) (user_message context : string) :
  is_Some (OpenAIChatbot.get_openai_response w st user_message context).
Proof.
  assert (Hfb : is_Some (OpenAIChatbot._get_fallback_response w user_message)).
  { unfold OpenAIChatbot._get_fallback_response.
    destruct (choice_nonempty (draw w) OpenAIChatbot.fallback_responses) as (x & Hx & _);
      [done|].
    rewrite Hx. simpl. eauto. }
  destruct Hfb as [r Hr].
  unfold OpenAIChatbot.get_openai_response.
  destruct (OpenAIChatbot.client st); simpl.
  - destruct (create w _); [eauto|]. rewrite Hr. simpl. eauto.
  - rewrite Hr. simpl. eauto.
Qed.

(** C3 (the code on every request of the scenario): with a configured
    client whose remote call always raises, the adapter swallows the
    error and returns one of its own canned texts with confidence 0.5;
    [process_message] takes that for a generative answer, so the request
    is counted in [openai_requests], tagged with source ["openai"], and
    no local strategy runs. *)
Theorem failing_adapter_is_counted_as_generative
    (draw : nat) (now : string) (elapsed : Q)
    (user_input : string) (user_id : option string) :
  let w := Runs.failing_world draw now elapsed in
  let '(r, st') := process_message w (init true) user_input user_id true in
  source r = "openai" /\ model r = "fallback"
  /\ intent r = Some "fallback" /\ confidence r = 0.5%Q
  /\ text r ∈ OpenAIChatbot.fallback_responses
  /\ openai_requests (analytics_ st') = 1
  /\ core_requests (analytics_ st') = 0
  /\ core_chatbot st' = core_chatbot (init true).
Proof.
  intros w.
  destruct (choice_nonempty draw OpenAIChatbot.fallback_responses) as (x & Hx & Hin);
    [done|].
  unfold process_message, try_openai, OpenAIChatbot.get_openai_response,
    OpenAIChatbot._get_fallback_response.
  cbn -[Py.choice OpenAIChatbot.fallback_responses init].
  change (OpenAIChatbot.client (openai_chatbot (init true))) with true.
  cbn -[Py.choice OpenAIChatbot.fallback_responses init].
  rewrite Hx.
  cbn -[OpenAIChatbot.fallback_responses].
  repeat split. exact Hin.
Qed.

End Orchestrator.

(** ** Counters of the baseline chatbot *)

Section CoreCounters.
Import Env CustomerSupportChatbot Invariants.

Lemma dict_lookup_elem {V : Type} (d : list (string * V)) (k : string) (v : V) :
  Py.dict_lookup d k = Some v -> (k, v) ∈ d.
Proof.
  induction d as [|[k' v'] d IH]; simpl; [done|].
  destruct (String.eqb_spec k' k) as [->|_].
  - intros [= ->]. apply list_elem_of_here.
  - intros H. apply list_elem_of_further. by apply IH.
Qed.

Lemma initialize_intents_stocked : stocked _initialize_intents.
Proof. unfold stocked, _initialize_intents. repeat constructor; done. Qed.

(** On a stocked catalog [_generate_response] cannot raise. *)
Lemma generate_response_returns (w : world) (catalog : list (string * intent_data))
    (intent user_input : string) :
  stocked catalog -> is_Some (_generate_response w catalog intent user_input).
Proof.
  intros Hst. unfold _generate_response.
  destruct (Py.dict_lookup catalog intent) as [data|] eqn:Hl.
  - apply dict_lookup_elem in Hl.
    unfold stocked in Hst. rewrite Forall_forall in Hst.
    specialize (Hst _ Hl). simpl in Hst.
    destruct (choice_nonempty (draw w) (responses data) Hst) as (x & -> & _). eauto.
  - unfold _get_fallback_response.
    destruct (choice_nonempty (draw w) fallback_responses) as (x & -> & _); [done|eauto].
Qed.

(** What one [process_message] call does to the state: nothing (blank
    input), one recorded interaction, or one recorded failure. *)
Lemma process_message_cases (w : world) (st : state)
    (user_input : string) (session_id : option string) :
  let st' := snd (process_message w st user_input session_id) in
  st' = st
  \/ (exists intent response_text confidence,
        st' = _record_interaction w st user_input intent response_text
                confidence (elapsed w) session_id)
  \/ (st' = record_failure st
      /\ exists intent, _generate_response w (intents st) intent user_input = None).
Proof.
  unfold process_message.
  destruct (negb _); [by left|].
  destruct (_find_best_intent (intents st) user_input) as [intent confidence].
  destruct (_generate_response w (intents st) intent user_input) as [response_text|] eqn:Hg;
    simpl.
  - right; left. eauto.
  - right; right. eauto.
Qed.

Lemma core_step_counted (st : state) (c : Runs.core_call) :
  counted st -> counted (Runs.core_step st c).
Proof.
  intros [Ht Hl]. destruct c as [w u s| |]; simpl; [|done|done].
  destruct (process_message_cases w st u s) as [-> | [(i & t & c & ->) | [-> _]]].
  - done.
  - unfold counted; simpl. rewrite length_app; simpl. lia.
  - done.
Qed.

Lemma core_run_counted (st : state) (calls : list Runs.core_call) :
  counted st -> counted (Runs.core_run st calls).
Proof.
  revert st. induction calls as [|c calls IH]; intros st H; simpl; [done|].
  apply IH. by apply core_step_counted.
Qed.

Lemma core_step_unfailing (st : state) (c : Runs.core_call) :
  unfailing st -> unfailing (Runs.core_step st c).
Proof.
  intros [Hs Hf]. destruct c as [w u s| |]; simpl; [|done|done].
  destruct (process_message_cases w st u s) as [-> | [(i & t & c & ->) | [_ (i & Hn)]]].
  - done.
  - done.
  - destruct (generate_response_returns w (intents st) i u Hs) as [x Hx]. congruence.
Qed.

Lemma core_run_unfailing (st : state) (calls : list Runs.core_call) :
  unfailing st -> unfailing (Runs.core_run st calls).
Proof.
  revert st. induction calls as [|c calls IH]; intros st H; simpl; [done|].
  apply IH. by apply core_step_unfailing.
Qed.

Lemma core_step_intents (st : state) (c : Runs.core_call) :
  intents (Runs.core_step st c) = intents st.
Proof.
  destruct c as [w u s| |]; simpl; [|done|done].
  by destruct (process_message_cases w st u s) as [-> | [(i & t & c & ->) | [-> _]]].
Qed.

Lemma core_run_intents (st : state) (calls : list Runs.core_call) :
  intents (Runs.core_run st calls) = intents st.
Proof.
  revert st. induction calls as [|c calls IH]; intros st; [done|].
  change (Runs.core_run st (c :: calls)) with (Runs.core_run (Runs.core_step st c) calls).
  by rewrite IH, core_step_intents.
Qed.

(** What one [process_message] call does to the three counters: a
    request that raises moves [failed_responses] alone; no other request
    moves it. *)
Lemma process_message_failed (w : world) (st : state)
    (user_input : string) (session_id : option string) :
  let a0 := analytics_ st in
  let a1 := analytics_ (snd (process_message w st user_input session_id)) in
  if raises w (intents st) user_input
  then failed_responses a1 = failed_responses a0 + 1
       /\ total_requests a1 = total_requests a0
       /\ successful_responses a1 = successful_responses a0
  else failed_responses a1 = failed_responses a0.
Proof.
  unfold process_message, raises.
  destruct (Py.truthy_str (Py.strip user_input)); simpl; [|done].
  destruct (_find_best_intent (intents st) user_input) as [intent confidence]. simpl.
  by destruct (_generate_response w (intents st) intent user_input).
Qed.

Lemma core_step_failed (st : state) (c : Runs.core_call) :
  failed_responses (analytics_ (Runs.core_step st c))
    = failures_step (intents st) (failed_responses (analytics_ st)) c.
Proof.
  destruct c as [w u s| |]; simpl; [|done|done].
  pose proof (process_message_failed w st u s) as H. simpl in H.
  destruct (raises w (intents st) u); [apply H|exact H].
Qed.

Lemma core_run_failed (st : state) (calls : list Runs.core_call) :
  failed_responses (analytics_ (Runs.core_run st calls))
    = fold_left (failures_step (intents st)) calls (failed_responses (analytics_ st)).
Proof.
  revert st. induction calls as [|c calls IH]; intros st; [done|].
  change (Runs.core_run st (c :: calls)) with (Runs.core_run (Runs.core_step st c) calls).
  rewrite IH, core_step_intents, core_step_failed. done.
Qed.

(** The failure branch exists: on a catalog with an intent that has no
    response, the matching request is answered with the error text, and
    only [failed_responses] moves. *)
Lemma process_message_failure_branch (w : world) :
  let st := State [] zero_analytics [("a", IntentData ["a"] [])] in
  let '(r, st') := process_message w st "a" None in
  intent r = "error"
  /\ failed_responses (analytics_ st') = 1
  /\ total_requests (analytics_ st') = 0
  /\ successful_responses (analytics_ st') = 0.
Proof. vm_compute. repeat split. Qed.

(** Rounding of a value that is a whole number. *)
Lemma round_half_even_whole (q : Q) (z : Z) :
  (q == inject_Z z)%Q -> Py.round_half_even q = z.
Proof.
  unfold Qeq. simpl. intros H.
  unfold Py.round_half_even.
  assert (Hn : Qnum q = (z * Z.pos (Qden q))%Z) by lia.
  rewrite Hn, Z.div_mul, Z.mod_mul by lia.
  simpl. done.
Qed.

Lemma format_hundred (q : Q) : (q == 100)%Q -> Py.format_fixed 1 q = "100.0".
Proof.
  intros H. unfold Py.format_fixed.
  rewrite (round_half_even_whole _ 1000).
  - assert (Hle : Qle_bool 0 q = true).
    { apply Qle_bool_iff. rewrite H. done. }
    rewrite Hle. reflexivity.
  - rewrite H. reflexivity.
Qed.

End CoreCounters.

(** ** Counters and history of the enhanced chatbot *)

Section EnhancedCounters.
Import Env EnhancedChatbotWithDataset.

(** What one [process_message] call does to the analytics: the total
    and exactly one of the two per-source counters go up by one, and one
    turn carrying the user's input is pushed on the history. *)
Lemma process_message_analytics (w : world) (st : state)
    (user_input : string) (user_id : option string) (use_openai : bool) :
  let a := analytics_ st in
  let a' := analytics_ (snd (process_message w st user_input user_id use_openai)) in
  total_requests a' = total_requests a + 1
  /\ ((openai_requests a' = openai_requests a + 1 /\ core_requests a' = core_requests a)
      \/ (openai_requests a' = openai_requests a /\ core_requests a' = core_requests a + 1))
  /\ exists t, t_user_input t = user_input
        /\ conversation_history a' = push_history (conversation_history a) t.
Proof.
  assert (Hcore :
    let st0 := with_analytics st (bump_total (analytics_ st)) in
    let a := analytics_ st in
    let a' := analytics_ (snd (process_core w st0 user_input user_id)) in
    total_requests a' = total_requests a + 1
    /\ ((openai_requests a' = openai_requests a + 1 /\ core_requests a' = core_requests a)
        \/ (openai_requests a' = openai_requests a /\ core_requests a' = core_requests a + 1))
    /\ exists t, t_user_input t = user_input
          /\ conversation_history a' = push_history (conversation_history a) t).
  { unfold process_core.
    rewrite process_with_enhanced_dataset_never_falls_back.
    destruct (_find_best_intent_match _ _) as [[i c] t]. simpl.
    split; [done|]. split; [by right|]. eexists. split; [|reflexivity]. done. }
  unfold process_message.
  destruct (use_openai && _); [|exact Hcore].
  unfold try_openai.
  destruct (get_openai_response_returns w
              (openai_chatbot (with_analytics st (bump_total (analytics_ st))))
              user_input "") as [[r o] Hr].
  rewrite Hr. simpl.
  split; [done|]. split; [by left|]. eexists. split; [|reflexivity]. done.
Qed.

Lemma enhanced_run_total (st : state) (qs : list Runs.request) :
  total_requests (analytics_ st)
    = openai_requests (analytics_ st) + core_requests (analytics_ st) ->
  let a := analytics_ (Runs.enhanced_run st qs) in
  total_requests a = openai_requests a + core_requests a.
Proof.
  revert st. induction qs as [|q qs IH]; intros st H; simpl; [done|].
  apply IH. unfold Runs.enhanced_step.
  destruct (process_message_analytics (Runs.q_world q) st (Runs.q_user_input q)
              (Runs.q_user_id q) (Runs.q_use_openai q)) as (Ht & Hs & _).
  lia.
Qed.

(** [push_history] keeps the last [capacity] entries of the extended list. *)
Lemma push_history_last_n (h : list turn) (t : turn) :
  push_history h t = Py.last_n capacity (h ++ [t]).
Proof.
  unfold push_history, Py.last_n.
  destruct (Nat.ltb_spec capacity (length (h ++ [t]))) as [Hlt|Hge]; [done|].
  replace (length (h ++ [t]) - capacity) with 0 by lia. done.
Qed.

Lemma last_n_app_last_n {A : Type} (n : nat) (l es : list A) :
  Py.last_n n (Py.last_n n l ++ es) = Py.last_n n (l ++ es).
Proof.
  unfold Py.last_n.
  destruct (Nat.le_gt_cases (length l) n) as [Hle|Hgt].
  - replace (length l - n) with 0 by lia. done.
  - rewrite !length_app, length_drop, !drop_app, drop_drop, length_drop.
    f_equal; f_equal; lia.
Qed.

Lemma pushes_last_n (es h : list turn) :
  length h <= capacity ->
  fold_left push_history es h = Py.last_n capacity (h ++ es).
Proof.
  revert h. induction es as [|e es IH]; intros h Hh; simpl.
  - rewrite app_nil_r. unfold Py.last_n.
    replace (length h - capacity) with 0 by lia. done.
  - rewrite IH.
    + rewrite push_history_last_n, last_n_app_last_n, <- app_assoc. done.
    + rewrite push_history_last_n. unfold Py.last_n.
      rewrite length_drop, length_app. simpl. lia.
Qed.

(** A run pushes one turn per request, in request order. *)
Lemma enhanced_run_history (st : state) (qs : list Runs.request) :
  exists turns,
    map t_user_input turns = map Runs.q_user_input qs
    /\ conversation_history (analytics_ (Runs.enhanced_run st qs))
       = fold_left push_history turns (conversation_history (analytics_ st)).
Proof.
  revert st. induction qs as [|q qs IH]; intros st; simpl.
  - exists []. done.
  - destruct (IH (Runs.enhanced_step st q)) as (turns & Hm & Hh).
    destruct (process_message_analytics (Runs.q_world q) st (Runs.q_user_input q)
                (Runs.q_user_id q) (Runs.q_use_openai q)) as (_ & _ & t & Ht & Hp).
    exists (t :: turns). simpl. split; [by rewrite Ht, Hm|].
    rewrite Hh. unfold Runs.enhanced_step. by rewrite Hp.
Qed.

End EnhancedCounters.

(** ** Analytics invariants *)

Section Analytics.
Import Env Invariants.

Lemma init_counted (catalog : list (string * CustomerSupportChatbot.intent_data)) :
  counted (CustomerSupportChatbot.State [] CustomerSupportChatbot.zero_analytics catalog).
Proof. by split. Qed.

(** In a counted state [get_analytics] returns a report. *)
Lemma get_analytics_counted (st : CustomerSupportChatbot.state) :
  counted st ->
  exists avg,
    CustomerSupportChatbot.get_analytics st =
      Some (CustomerSupportChatbot.Report
              (CustomerSupportChatbot.total_requests (CustomerSupportChatbot.analytics_ st))
              (CustomerSupportChatbot.successful_responses (CustomerSupportChatbot.analytics_ st))
              (CustomerSupportChatbot.failed_responses (CustomerSupportChatbot.analytics_ st))
              (Py.format_fixed 1
                 (CustomerSupportChatbot.success_rate (CustomerSupportChatbot.analytics_ st))
                 +:+ "%")
              (Py.format_fixed 2 avg +:+ "s")
              (CustomerSupportChatbot.intent_counts (CustomerSupportChatbot.analytics_ st))
              (Py.last_n 10 (CustomerSupportChatbot.conversation_history st))).
Proof.
  intros [_ Hl]. unfold CustomerSupportChatbot.get_analytics.
  destruct (0 <? _) eqn:Hpos.
  - destruct (CustomerSupportChatbot.response_times _) as [|t ts] eqn:Hts.
    + apply Nat.ltb_lt in Hpos. simpl in Hl. lia.
    + simpl. eauto.
  - simpl. eauto.
Qed.

Lemma success_rate_counted (a : CustomerSupportChatbot.analytics) :
  CustomerSupportChatbot.total_requests a = CustomerSupportChatbot.successful_responses a ->
  0 < CustomerSupportChatbot.total_requests a ->
  (CustomerSupportChatbot.success_rate a == 100)%Q.
Proof.
  intros Heq Hpos. unfold CustomerSupportChatbot.success_rate.
  rewrite <- Heq.
  destruct (Nat.ltb_spec 0 (CustomerSupportChatbot.total_requests a)) as [_|?]; [|lia].
  field. intros H. unfold Qeq in H. simpl in H. lia.
Qed.

(** C7: after any sequence of requests the total request count is the
    sum of the per-source counts: [openai_requests + core_requests] for
    the enhanced chatbot, [successful_responses + failed_responses] for
    the baseline chatbot (whose failure counter stays at zero, its
    catalog giving every intent a response). *)
Theorem total_is_sum_of_sources :
  (forall (client : bool) (qs : list Runs.request),
     let a := EnhancedChatbotWithDataset.analytics_
                (Runs.enhanced_run (EnhancedChatbotWithDataset.init client) qs) in
     EnhancedChatbotWithDataset.total_requests a
       = EnhancedChatbotWithDataset.openai_requests a
         + EnhancedChatbotWithDataset.core_requests a)
  /\ (forall calls : list Runs.core_call,
        let a := CustomerSupportChatbot.analytics_
                   (Runs.core_run CustomerSupportChatbot.init calls) in
        CustomerSupportChatbot.total_requests a
          = CustomerSupportChatbot.successful_responses a
            + CustomerSupportChatbot.failed_responses a).
Proof.
  split.
  - intros client qs. by apply enhanced_run_total.
  - intros calls a.
    destruct (core_run_counted CustomerSupportChatbot.init calls
                (init_counted _)) as [Ht _].
    destruct (core_run_unfailing CustomerSupportChatbot.init calls) as [_ Hf].
    { split; [apply initialize_intents_stocked|done]. }
    subst a. lia.
Qed.

(** C10: in the baseline chatbot, whatever its catalog, [total_requests]
    and [successful_responses] are equal after any sequence of
    [process_message], [clear_history] and [get_analytics] calls, and
    whenever [total_requests] is positive [get_analytics] reports a
    success rate of "100.0%". The internal-error branch moves
    [failed_responses] alone: a request that raises adds one to it and
    leaves [total_requests] and [successful_responses] as they were, no
    other request changes it, and after the sequence it holds the number
    of requests that raised since the last [clear_history]. *)
Theorem baseline_success_rate_is_100
    (catalog : list (string * CustomerSupportChatbot.intent_data))
    (calls : list Runs.core_call) :
  let st := Runs.core_run
              (CustomerSupportChatbot.State [] CustomerSupportChatbot.zero_analytics catalog)
              calls in
  let a := CustomerSupportChatbot.analytics_ st in
  CustomerSupportChatbot.total_requests a = CustomerSupportChatbot.successful_responses a
  /\ (0 < CustomerSupportChatbot.total_requests a ->
      (CustomerSupportChatbot.success_rate a == 100)%Q
      /\ exists r, CustomerSupportChatbot.get_analytics st = Some r
           /\ CustomerSupportChatbot.r_success_rate r = "100.0%")
  /\ CustomerSupportChatbot.failed_responses a = failures catalog calls
  /\ (forall (w : world) (st0 : CustomerSupportChatbot.state)
             (user_input : string) (session_id : option string),
        let a0 := CustomerSupportChatbot.analytics_ st0 in
        let a1 := CustomerSupportChatbot.analytics_
                    (snd (CustomerSupportChatbot.process_message
                            w st0 user_input session_id)) in
        if raises w (CustomerSupportChatbot.intents st0) user_input
        then CustomerSupportChatbot.failed_responses a1
               = CustomerSupportChatbot.failed_responses a0 + 1
             /\ CustomerSupportChatbot.total_requests a1
                = CustomerSupportChatbot.total_requests a0
             /\ CustomerSupportChatbot.successful_responses a1
                = CustomerSupportChatbot.successful_responses a0
        else CustomerSupportChatbot.failed_responses a1
               = CustomerSupportChatbot.failed_responses a0).
Proof.
  intros st a.
  pose proof (core_run_counted _ calls (init_counted catalog)) as Hc.
  fold st in Hc. destruct (Hc) as [Ht _]. fold a in Ht.
  split; [exact Ht|]. split; [|split].
  - intros Hpos.
    pose proof (success_rate_counted a Ht Hpos) as Hr.
    split; [exact Hr|].
    destruct (get_analytics_counted st Hc) as [avg Hg].
    eexists. split; [exact Hg|]. simpl.
    fold a. by rewrite (format_hundred _ Hr).
  - subst a st. by rewrite core_run_failed.
  - intros w st0 user_input session_id. apply process_message_failed.
Qed.

(** One request on a fresh baseline chatbot: the total is 1 and the
    report shows "100.0%". One request that raises, on a catalog whose
    only intent has no response: [failed_responses] is 1 and the two
    other counters are still 0. *)
Lemma baseline_success_rate_is_100_witness :
  let st := Runs.core_run CustomerSupportChatbot.init
              [Runs.CoreProcess (Runs.failing_world 0 "t" 0) "hello" None] in
  let broken :=
    Runs.core_run
      (CustomerSupportChatbot.State [] CustomerSupportChatbot.zero_analytics
         [("a", CustomerSupportChatbot.IntentData ["a"] [])])
      [Runs.CoreProcess (Runs.failing_world 0 "t" 0) "a" None] in
  (0 < CustomerSupportChatbot.total_requests (CustomerSupportChatbot.analytics_ st)
   /\ exists r, CustomerSupportChatbot.get_analytics st = Some r
        /\ CustomerSupportChatbot.r_success_rate r = "100.0%")
  /\ (CustomerSupportChatbot.failed_responses (CustomerSupportChatbot.analytics_ broken) = 1
      /\ CustomerSupportChatbot.total_requests (CustomerSupportChatbot.analytics_ broken)
         = CustomerSupportChatbot.successful_responses
             (CustomerSupportChatbot.analytics_ broken)).
Proof.
  assert (Hpos : 0 < CustomerSupportChatbot.total_requests
                       (CustomerSupportChatbot.analytics_
                          (Runs.core_run CustomerSupportChatbot.init
                             [Runs.CoreProcess (Runs.failing_world 0 "t" 0) "hello" None]))).
  { vm_compute. constructor. }
  split.
  - split; [exact Hpos|].
    exact (proj2 (proj1 (proj2 (baseline_success_rate_is_100
                                  CustomerSupportChatbot._initialize_intents
                                  [Runs.CoreProcess (Runs.failing_world 0 "t" 0) "hello" None]))
                    Hpos)).
  - pose proof (baseline_success_rate_is_100
                  [("a", CustomerSupportChatbot.IntentData ["a"] [])]
                  [Runs.CoreProcess (Runs.failing_world 0 "t" 0) "a" None]) as H.
    cbv zeta in H. destruct H as (Ht & _ & Hf & _).
    split; [|exact Ht].
    rewrite Hf. reflexivity.
Defined.

(** ** The rolling conversation window *)

(** The baseline history only grows between two [clear_history] calls:
    a request appends at most one record, behind the older ones. *)
Lemma core_history_appends (w : world) (st : CustomerSupportChatbot.state)
    (user_input : string) (session_id : option string) :
  exists new,
    CustomerSupportChatbot.conversation_history
      (snd (CustomerSupportChatbot.process_message w st user_input session_id))
    = CustomerSupportChatbot.conversation_history st ++ new
    /\ length new <= 1.
Proof.
  destruct (process_message_cases w st user_input session_id)
    as [-> | [(i & t & c & ->) | [-> _]]]; simpl.
  - exists []. split; [by rewrite app_nil_r|simpl; lia].
  - eexists [_]. split; [reflexivity|simpl; lia].
  - exists []. split; [by rewrite app_nil_r|simpl; lia].
Qed.

Lemma last_n_length {A : Type} (n : nat) (l : list A) : length (Py.last_n n l) <= n.
Proof. unfold Py.last_n. rewrite length_drop. lia. Qed.

Lemma last_n_app_exact {A : Type} (n : nat) (old recent : list A) :
  length recent = n -> Py.last_n n (old ++ recent) = recent.
Proof.
  intros H. unfold Py.last_n. rewrite length_app, H.
  replace (length old + n - n) with (length old) by lia.
  by rewrite drop_app_length.
Qed.

(** C8: the rolling window never holds more than its capacity, and it
    is always the most recent records in their order of arrival: when
    [k] records beyond the capacity have been appended, exactly the [k]
    oldest are gone. For the enhanced chatbot the window is
    [analytics['conversation_history']], capacity 100, maintained by
    [_add_to_history]; for the baseline chatbot it is the
    [recent_conversations] entry of [get_analytics], capacity 10, a view
    of the append-only [conversation_history]. *)
Theorem rolling_window_fifo :
  (forall turns : list EnhancedChatbotWithDataset.turn,
     let window := fold_left EnhancedChatbotWithDataset.push_history turns [] in
     length window <= 100 /\ window = drop (length turns - 100) turns)
  /\ (forall old recent : list EnhancedChatbotWithDataset.turn,
        length recent = 100 ->
        fold_left EnhancedChatbotWithDataset.push_history (old ++ recent) [] = recent)
  /\ (forall (client : bool) (qs : list Runs.request),
        exists turns,
          map EnhancedChatbotWithDataset.t_user_input turns = map Runs.q_user_input qs
          /\ EnhancedChatbotWithDataset.conversation_history
               (EnhancedChatbotWithDataset.analytics_
                  (Runs.enhanced_run (EnhancedChatbotWithDataset.init client) qs))
             = drop (length turns - 100) turns)
  /\ (forall calls : list Runs.core_call,
        let st := Runs.core_run CustomerSupportChatbot.init calls in
        let history := CustomerSupportChatbot.conversation_history st in
        exists r, CustomerSupportChatbot.get_analytics st = Some r
          /\ length (CustomerSupportChatbot.r_recent_conversations r) <= 10
          /\ CustomerSupportChatbot.r_recent_conversations r
             = drop (length history - 10) history)
  /\ (forall (old recent : list CustomerSupportChatbot.conversation)
             (a : CustomerSupportChatbot.analytics)
             (catalog : list (string * CustomerSupportChatbot.intent_data)),
        length recent = 10 ->
        counted (CustomerSupportChatbot.State (old ++ recent) a catalog) ->
        exists r,
          CustomerSupportChatbot.get_analytics
            (CustomerSupportChatbot.State (old ++ recent) a catalog) = Some r
          /\ CustomerSupportChatbot.r_recent_conversations r = recent).
Proof.
  repeat apply conj.
  - intros turns window. subst window.
    rewrite pushes_last_n by (simpl; lia). simpl.
    split; [apply (last_n_length 100)|done].
  - intros old recent H.
    rewrite pushes_last_n by (simpl; lia). simpl.
    by apply last_n_app_exact.
  - intros client qs.
    destruct (enhanced_run_history (EnhancedChatbotWithDataset.init client) qs)
      as (turns & Hm & Hh).
    exists turns. split; [done|]. rewrite Hh. simpl.
    by rewrite pushes_last_n by (simpl; lia).
  - intros calls st history.
    destruct (get_analytics_counted st) as [avg Hg].
    { apply core_run_counted, init_counted. }
    eexists. split; [exact Hg|]. simpl. split; [apply last_n_length|done].
  - intros old recent a catalog H Hc.
    destruct (get_analytics_counted _ Hc) as [avg Hg].
    eexists. split; [exact Hg|]. simpl. by apply last_n_app_exact.
Qed.

End Analytics.

(** ** Scans that keep the best candidate seen so far *)

(** Both classifiers scan a list and replace the running best only by a
    strictly better candidate. Such a scan ends on the first candidate
    of maximal score, or on its starting value when no candidate beats
    it. *)
Section FirstMaximum.
Context {X B K : Type}.
Variable key : B -> K.
Variable score : X -> K.
Variable mk : X -> B.
Variable below : K -> K -> bool.
Variable step : B -> X -> B.
Variable Inv : B -> Prop.
Hypothesis key_mk : forall x, key (mk x) = score x.
Hypothesis below_trans :
  forall a b c, below a b = true -> below b c = true -> below a c = true.
Hypothesis below_cotrans :
  forall a b c, below a b = false -> below b c = false -> below a c = false.
Hypothesis Inv_mk : forall x, Inv (mk x).
Hypothesis step_eq :
  forall acc x, Inv acc ->
    step acc x = if below (key acc) (score x) then mk x else acc.

Lemma fold_first_maximum (xs : list X) (start : B) :
  Inv start ->
  (fold_left step xs start = start
   /\ Forall (fun x => below (key start) (score x) = false) xs)
  \/ (exists pre x post,
        xs = pre ++ x :: post
        /\ fold_left step xs start = mk x
        /\ below (key start) (score x) = true
        /\ Forall (fun y => below (score y) (score x) = true) pre
        /\ Forall (fun y => below (score x) (score y) = false) post).
Proof.
  revert start. induction xs as [|x xs IH]; intros start Hinv; simpl.
  { left. split; [done|constructor]. }
  rewrite (step_eq start x Hinv).
  destruct (below (key start) (score x)) eqn:Hx.
  - destruct (IH (mk x) (Inv_mk x)) as [[Hr Hall] | (pre & y & post & -> & Hr & Hy & Hpre & Hpost)].
    + right. exists [], x, xs. rewrite key_mk in Hall. done.
    + right. rewrite key_mk in Hy. exists (x :: pre), y, post.
      repeat split; [done|by eapply below_trans| |done].
      by constructor.
  - destruct (IH start Hinv) as [[Hr Hall] | (pre & y & post & -> & Hr & Hy & Hpre & Hpost)].
    + left. split; [done|by constructor].
    + right. exists (x :: pre), y, post.
      repeat split; [done|done| |done].
      constructor; [|done].
      destruct (below (score x) (score y)) eqn:Hxy; [done|].
      rewrite (below_cotrans _ _ _ Hx Hxy) in Hy. done.
Qed.

End FirstMaximum.

(** ** The keyword classifier *)

Section KeywordClassifier.
Import CustomerSupportChatbot.

(** The score of an intent is the number of its keyword phrases that
    occur in the lowered text. *)
Lemma keyword_score_count (kws : list string) (text : string) :
  keyword_score kws text
    = length (filter (fun keyword => Py.str_in keyword text = true) kws).
Proof.
  unfold keyword_score.
  assert (H : forall n,
    fold_left (fun score keyword => if Py.str_in keyword text then score + 1 else score) kws n
      = n + length (filter (fun keyword => Py.str_in keyword text = true) kws)).
  { induction kws as [|k kws IH]; intros n; simpl; [lia|].
    rewrite IH. rewrite filter_cons.
    destruct (Py.str_in k text) eqn:Hk.
    - rewrite decide_True by done. simpl. lia.
    - rewrite decide_False by done. lia. }
  by rewrite H.
Qed.

Lemma confidence_of_score (n : nat) :
  0 < n ->
  let c := Qmin (inject_Z (Z.of_nat n) / 3.0) 1.0 in
  (0 < c <= 1)%Q
  /\ (c == (if n =? 1 then 1 # 3 else if n =? 2 then 2 # 3 else 1))%Q.
Proof.
  intros Hn c. subst c.
  assert (Hq : (inject_Z (Z.of_nat n) / 3.0 == Z.of_nat n # 3)%Q).
  { unfold Qeq, Qdiv, Qmult, Qinv, inject_Z. simpl. lia. }
  rewrite Hq.
  destruct (Nat.eqb_spec n 1) as [->|H1]; [vm_compute; done|].
  destruct (Nat.eqb_spec n 2) as [->|H2]; [vm_compute; done|].
  assert (Hle : (1.0 <= Z.of_nat n # 3)%Q).
  { unfold Qle. simpl. lia. }
  rewrite (Q.min_r _ _ Hle). done.
Qed.

(** The outer loop ends on the first intent of maximal score, or on its
    starting value when no keyword occurs. *)
Lemma best_intent_scan (catalog : list (string * intent_data)) (text : string) :
  let score := fun item : string * intent_data =>
    length (filter (fun keyword => Py.str_in keyword text = true) (keywords (snd item))) in
  (fold_left (best_step text) catalog (0, "fallback") = (0, "fallback")
   /\ Forall (fun item => score item = 0) catalog)
  \/ (exists pre item post,
        catalog = pre ++ item :: post
        /\ fold_left (best_step text) catalog (0, "fallback") = (score item, fst item)
        /\ 0 < score item
        /\ Forall (fun earlier => score earlier < score item) pre
        /\ Forall (fun later => score later <= score item) post).
Proof.
  intros score.
  pose (mk := fun item : string * intent_data => (score item, fst item)).
  destruct (fold_first_maximum (B := nat * string) fst score mk Nat.ltb
              (best_step text) (fun _ => True)) with (xs := catalog) (start := (0, "fallback"))
    as [[Hr Hall] | (pre & item & post & Hcat & Hr & Hpos & Hpre & Hpost)].
  - done.
  - intros a b c H1 H2. apply Nat.ltb_lt in H1, H2. apply Nat.ltb_lt. lia.
  - intros a b c H1 H2. apply Nat.ltb_ge in H1, H2. apply Nat.ltb_ge. lia.
  - done.
  - intros [best_score best_intent] [name data] _. unfold best_step, mk, score. simpl.
    by rewrite keyword_score_count.
  - done.
  - left. split; [exact Hr|].
    eapply Forall_impl; [exact Hall|]. simpl. intros item H.
    apply Nat.ltb_ge in H. lia.
  - right. exists pre, item, post. simpl in Hpos. apply Nat.ltb_lt in Hpos.
    repeat split; try done.
    + eapply Forall_impl; [exact Hpre|]. intros y H. by apply Nat.ltb_lt in H.
    + eapply Forall_impl; [exact Hpost|]. intros y H. by apply Nat.ltb_ge in H.
Qed.

(** C5: the keyword classifier lowers the input, scores every intent of
    the catalog by the number of its keyword phrases occurring in the
    lowered text, and returns the first intent of maximal score with
    confidence [min(score / 3, 1)]: one third for one hit, two thirds for
    two, and 1 from three hits on. When no keyword occurs it returns the
    sentinel ["fallback"] with confidence 0.0. It is a total function:
    it returns a result on every catalog and input. *)
Theorem keyword_classifier_first_maximum
    (catalog : list (string * intent_data)) (user_input : string) :
  let text := Py.lower user_input in
  let score := fun item : string * intent_data =>
    length (filter (fun keyword => Py.str_in keyword text = true) (keywords (snd item))) in
  let '(intent, confidence) := _find_best_intent catalog user_input in
  (Forall (fun item => score item = 0) catalog
   /\ intent = "fallback" /\ confidence = 0.0%Q)
  \/ (exists pre item post,
        catalog = pre ++ item :: post
        /\ intent = fst item
        /\ 0 < score item
        /\ Forall (fun earlier => score earlier < score item) pre
        /\ Forall (fun later => score later <= score item) post
        /\ confidence = Qmin (inject_Z (Z.of_nat (score item)) / 3.0) 1.0
        /\ (0 < confidence <= 1)%Q
        /\ (confidence ==
              (if score item =? 1 then 1 # 3
               else if score item =? 2 then 2 # 3 else 1))%Q).
Proof.
  intros text score. unfold _find_best_intent. fold text.
  destruct (best_intent_scan catalog text)
    as [[-> Hall] | (pre & item & post & Hcat & -> & Hpos & Hpre & Hpost)].
  - left. done.
  - cbv beta iota.
    rewrite (proj2 (Nat.ltb_lt 0 _) Hpos).
    right. exists pre, item, post.
    destruct (confidence_of_score _ Hpos) as [Hrange Hval].
    repeat split; try done; apply Hrange.
Qed.

(** The scenarios of the design document on the shipped catalog. *)
Lemma keyword_classifier_scenarios :
  let classify := _find_best_intent _initialize_intents in
  (fst (classify "Hello") = "greeting" /\ (snd (classify "Hello") == 1 # 3)%Q)
  /\ (fst (classify "Where is my order #12345?") = "order_status"
      /\ (snd (classify "Where is my order #12345?") == 2 # 3)%Q)
  /\ (fst (classify "track my order status") = "order_status"
      /\ (snd (classify "track my order status") == 1)%Q)
  /\ classify "xyz" = ("fallback", 0.0%Q).
Proof. vm_compute. repeat split. Qed.

End KeywordClassifier.

(** ** The corpus-enhanced matcher *)

Section CorpusMatcher.
Import EnhancedChatbotWithDataset Tiers.

Lemma gt_true (x y : Q) : gt x y = true <-> (y < x)%Q.
Proof.
  unfold gt. rewrite negb_true_iff, <- not_true_iff_false, Qle_bool_iff.
  split; [apply Qnot_le_lt|apply Qlt_not_le].
Qed.

Lemma gt_false (x y : Q) : gt x y = false <-> (x <= y)%Q.
Proof. unfold gt. by rewrite negb_false_iff, Qle_bool_iff. Qed.

(** A candidate that does not exceed an earlier one of the same example
    changes nothing. *)
Lemma improve_again (intent : string) (ex : example) (c c' : Q) (b : best) :
  (c' <= c)%Q ->
  improve intent ex c' (improve intent ex c b) = improve intent ex c b.
Proof.
  intros Hle. destruct b as [[bi bc] br]. unfold improve.
  destruct (gt c bc) eqn:Hc.
  - by rewrite (proj2 (gt_false c' c) Hle).
  - apply gt_false in Hc.
    by rewrite (proj2 (gt_false c' bc) (Qle_trans _ _ _ Hle Hc)).
Qed.

(** The loop over the variations of one example. *)
Lemma variations_loop (user_input intent : string) (ex : example)
    (vs : list string) (b : best) :
  fold_left
    (fun acc variation =>
       if Py.str_in user_input (Py.lower variation)
       then improve intent ex 0.8 acc else acc) vs b
  = if existsb (fun variation => Py.str_in user_input (Py.lower variation)) vs
    then improve intent ex 0.8 b else b.
Proof.
  revert b. induction vs as [|v vs IH]; intros b; simpl; [done|].
  rewrite IH. destruct (Py.str_in user_input (Py.lower v)); simpl; [|done].
  rewrite improve_again by apply Qle_refl.
  by destruct (existsb _ vs).
Qed.

Lemma keyword_confidence_le (n : nat) : (keyword_confidence n <= 0.7)%Q.
Proof. unfold keyword_confidence. apply Q.le_min_l. Qed.

Lemma keyword_confidence_pos (n : nat) : 0 < n -> (0 < keyword_confidence n)%Q.
Proof.
  intros Hn. unfold keyword_confidence. apply Q.min_glb_lt; [done|].
  unfold Qlt. simpl. lia.
Qed.

Lemma tier_confidence_range (mapping : list (string * list string))
    (user_input : string) (entry : string * example) :
  (0 <= tier_confidence mapping user_input entry <= 0.9)%Q.
Proof.
  destruct entry as [intent ex]. unfold tier_confidence.
  destruct (exact_hit _ _); [done|].
  destruct (variation_hit _ _); [done|].
  destruct (Nat.ltb_spec 0 (hits mapping user_input intent)) as [Hpos|_]; [|done].
  split.
  - apply Qlt_le_weak. by apply keyword_confidence_pos.
  - eapply Qle_trans; [apply keyword_confidence_le|done].
Qed.

(** One example moves the running best exactly when the confidence of
    its highest firing tier is strictly greater. *)
Lemma example_step_improve (mapping : list (string * list string))
    (user_input intent : string) (b : best) (ex : example) :
  (0 <= snd (fst b))%Q ->
  example_step mapping user_input intent b ex
    = improve intent ex (tier_confidence mapping user_input (intent, ex)) b.
Proof.
  intros Hb. unfold example_step, tier_confidence.
  rewrite variations_loop.
  fold (exact_hit user_input ex). fold (variation_hit user_input ex).
  fold (hits mapping user_input intent).
  fold (keyword_confidence (hits mapping user_input intent)).
  pose proof (keyword_confidence_le (hits mapping user_input intent)) as Hk.
  assert (Hk8 : (keyword_confidence (hits mapping user_input intent) <= 0.8)%Q).
  { eapply Qle_trans; [exact Hk|done]. }
  assert (Hk9 : (keyword_confidence (hits mapping user_input intent) <= 0.9)%Q).
  { eapply Qle_trans; [exact Hk|done]. }
  assert (H89 : (0.8 <= 0.9)%Q) by done.
  destruct (exact_hit user_input ex), (variation_hit user_input ex),
    (0 <? hits mapping user_input intent);
    rewrite ?(improve_again _ _ _ _ _ H89), ?(improve_again _ _ _ _ _ Hk9),
      ?(improve_again _ _ _ _ _ Hk8); try done.
  destruct b as [[bi bc] br]. unfold improve. simpl in Hb.
  by rewrite (proj2 (gt_false 0 bc) Hb).
Qed.

(** The two nested loops scan the corpus entries in order. *)
Lemma matcher_scans_entries (mapping : list (string * list string))
    (user_input : string) (er : list (string * list example)) (start : best) :
  fold_left
    (fun acc item =>
       let '(intent, examples) := item in
       fold_left (example_step mapping user_input intent) examples acc)
    er start
  = fold_left
      (fun acc entry => example_step mapping user_input (fst entry) acc (snd entry))
      (corpus_entries er) start.
Proof.
  revert start. induction er as [|[intent examples] er IH]; intros start; simpl; [done|].
  unfold corpus_entries. simpl. rewrite fold_left_app. fold (corpus_entries er).
  rewrite IH. f_equal.
  clear IH. revert start. induction examples as [|ex examples IH]; intros start; simpl; [done|].
  by rewrite IH.
Qed.

(** The matcher ends on the first corpus entry whose tier confidence is
    maximal, or on its empty starting value when no tier fires. *)
Lemma matcher_first_maximum (st : state) (user_input : string) :
  let entries := corpus_entries (enhanced_responses st) in
  let tier := tier_confidence (intent_mapping st) user_input in
  (_find_best_intent_match st user_input = (None, 0.0%Q, "")
   /\ Forall (fun entry => (tier entry == 0)%Q) entries)
  \/ (exists pre entry post,
        entries = pre ++ entry :: post
        /\ _find_best_intent_match st user_input
           = (Some (fst entry), tier entry, e_output (snd entry))
        /\ (0 < tier entry)%Q
        /\ Forall (fun earlier => (tier earlier < tier entry)%Q) pre
        /\ Forall (fun later => (tier later <= tier entry)%Q) post).
Proof.
  intros entries tier. unfold _find_best_intent_match.
  rewrite matcher_scans_entries. fold entries.
  pose (mk := fun entry : string * example =>
                ((Some (fst entry), tier entry, e_output (snd entry)) : best)).
  destruct (fold_first_maximum (B := best) (fun b => snd (fst b)) tier mk
              (fun a b => gt b a)
              (fun acc entry =>
                 example_step (intent_mapping st) user_input (fst entry) acc (snd entry))
              (fun b => (0 <= snd (fst b))%Q))
    with (xs := entries) (start := ((None, 0.0%Q, "") : best))
    as [[Hr Hall] | (pre & entry & post & Hcat & Hr & Hpos & Hpre & Hpost)].
  - done.
  - intros a b c H1 H2. apply gt_true in H1, H2. apply gt_true.
    by eapply Qlt_trans.
  - intros a b c H1 H2. apply gt_false in H1, H2. apply gt_false.
    by eapply Qle_trans.
  - intros entry. simpl. apply tier_confidence_range.
  - intros acc [intent ex] Hacc. simpl.
    rewrite (example_step_improve _ _ _ _ _ Hacc).
    by destruct acc as [[bi bc] br].
  - done.
  - left. split; [exact Hr|].
    eapply Forall_impl; [exact Hall|]. intros entry H. simpl in H.
    apply gt_false in H. apply Qle_antisym.
    + eapply Qle_trans; [exact H|done].
    + apply tier_confidence_range.
  - right. exists pre, entry, post. simpl in Hpos. apply gt_true in Hpos.
    repeat split; try done.
    + eapply Qle_lt_trans; [|exact Hpos]. done.
    + eapply Forall_impl; [exact Hpre|]. intros y H. by apply gt_true in H.
    + eapply Forall_impl; [exact Hpost|]. intros y H. by apply gt_false in H.
Qed.

(** The returned confidence bounds the tier confidence of every entry,
    and is 0.0 or the tier confidence of some entry. *)
Lemma matcher_confidence_is_maximum (st : state) (user_input : string) :
  let entries := corpus_entries (enhanced_responses st) in
  let tier := tier_confidence (intent_mapping st) user_input in
  let confidence := snd (fst (_find_best_intent_match st user_input)) in
  Forall (fun entry => (tier entry <= confidence)%Q) entries
  /\ (confidence = 0.0%Q \/ exists entry, entry ∈ entries /\ confidence = tier entry).
Proof.
  intros entries tier confidence. subst confidence.
  destruct (matcher_first_maximum st user_input)
    as [[-> Hall] | (pre & entry & post & Hcat & -> & Hpos & Hpre & Hpost)]; simpl.
  - split; [|by left].
    eapply Forall_impl; [exact Hall|]. intros entry H. simpl in H.
    fold tier in H. rewrite H. done.
  - fold entries in Hcat. fold tier. split.
    + rewrite Hcat. apply Forall_app. split.
      * eapply Forall_impl; [exact Hpre|]. intros y H. by apply Qlt_le_weak.
      * constructor; [apply Qle_refl|exact Hpost].
    + right. exists entry. split; [|done]. rewrite Hcat. set_solver.
Qed.

(** C4: for every corpus example the matcher weighs the exact-substring
    tier at 0.9, the variation tier at 0.8 and the keyword-overlap tier
    at [min(0.7, hits * 0.2)], and replaces its running best only by a
    strictly greater confidence. So it returns the first corpus entry,
    in iteration order, whose highest firing tier is maximal; an exact
    match anywhere in the corpus yields 0.9, otherwise a variation match
    yields 0.8, otherwise the result is a keyword-overlap one, at most
    0.7. *)
Theorem corpus_matcher_tiers (st : state) (user_input : string) :
  let entries := corpus_entries (enhanced_responses st) in
  let tier := tier_confidence (intent_mapping st) user_input in
  let '(best_intent, best_confidence, best_response) :=
    _find_best_intent_match st user_input in
  ((Forall (fun entry => (tier entry == 0)%Q) entries
    /\ best_intent = None /\ best_confidence = 0.0%Q /\ best_response = "")
   \/ (exists pre entry post,
         entries = pre ++ entry :: post
         /\ best_intent = Some (fst entry)
         /\ best_response = e_output (snd entry)
         /\ best_confidence = tier entry
         /\ (0 < tier entry)%Q
         /\ Forall (fun earlier => (tier earlier < tier entry)%Q) pre
         /\ Forall (fun later => (tier later <= tier entry)%Q) post))
  /\ (if existsb (fun entry => exact_hit user_input (snd entry)) entries
      then best_confidence = 0.9%Q
      else if existsb (fun entry => variation_hit user_input (snd entry)) entries
      then best_confidence = 0.8%Q
      else (best_confidence <= 0.7)%Q)
  /\ (forall n : nat, (keyword_confidence n <= 0.7)%Q)
  /\ (0.7 < 0.8)%Q /\ (0.8 < 0.9)%Q.
Proof.
  intros entries tier.
  pose proof (matcher_first_maximum st user_input) as Hfirst.
  pose proof (matcher_confidence_is_maximum st user_input) as [Hmax Hval].
  fold entries in Hfirst, Hmax, Hval. fold tier in Hfirst, Hmax, Hval.
  destruct (_find_best_intent_match st user_input) as [[bi bc] br].
  simpl in Hmax, Hval.
  split; [|split; [|split; [apply keyword_confidence_le|done]]].
  { destruct Hfirst as [[[= -> -> ->] Hall] | (pre & entry & post & Hcat & [= -> -> ->] & H)].
    - by left.
    - right. exists pre, entry, post. destruct H as (? & ? & ?). done. }
  rewrite Forall_forall in Hmax.
  assert (Hshape : forall entry : string * example,
            (exact_hit user_input (snd entry) = true -> tier entry = 0.9%Q)
            /\ (exact_hit user_input (snd entry) = false ->
                variation_hit user_input (snd entry) = true -> tier entry = 0.8%Q)
            /\ (exact_hit user_input (snd entry) = false ->
                variation_hit user_input (snd entry) = false ->
                (tier entry <= 0.7)%Q)).
  { intros [intent ex]. unfold tier, tier_confidence. simpl.
    destruct (exact_hit user_input ex); [done|].
    destruct (variation_hit user_input ex); [done|].
    repeat split; try done. intros _ _.
    destruct (0 <? _); [apply keyword_confidence_le|done]. }
  assert (Hlow : forall entry : string * example,
            exact_hit user_input (snd entry) = false -> (tier entry <= 0.8)%Q).
  { intros entry He. destruct (Hshape entry) as (_ & H8 & H7).
    destruct (variation_hit user_input (snd entry)).
    - by rewrite H8.
    - eapply Qle_trans; [by apply H7|done]. }
  destruct (existsb (fun entry => exact_hit user_input (snd entry)) entries) eqn:Hex.
  { apply existsb_exists in Hex as (e & Hin & He).
    apply list_elem_of_In in Hin.
    pose proof (Hmax e Hin) as Hle. simpl in Hle.
    rewrite (proj1 (Hshape e) He) in Hle.
    destruct Hval as [-> | (entry & _ & ->)]; [done|].
    destruct (exact_hit user_input (snd entry)) eqn:Hentry.
    - by apply Hshape.
    - exfalso. apply (Qlt_irrefl 0.9). eapply Qle_lt_trans; [exact Hle|].
      eapply Qle_lt_trans; [by apply Hlow|done]. }
  assert (Hno : forall e, e ∈ entries -> exact_hit user_input (snd e) = false).
  { intros e Hin. apply list_elem_of_In in Hin.
    destruct (exact_hit user_input (snd e)) eqn:He; [|done].
    assert (Ht : existsb (fun entry => exact_hit user_input (snd entry)) entries = true).
    { apply existsb_exists. eauto. }
    congruence. }
  destruct (existsb (fun entry => variation_hit user_input (snd entry)) entries) eqn:Hvar.
  { apply existsb_exists in Hvar as (e & Hin & He).
    apply list_elem_of_In in Hin.
    pose proof (Hmax e Hin) as Hle. simpl in Hle.
    rewrite (proj1 (proj2 (Hshape e)) (Hno e Hin) He) in Hle.
    destruct Hval as [-> | (entry & Hentry & ->)]; [done|].
    destruct (variation_hit user_input (snd entry)) eqn:Hv.
    - apply Hshape; [by apply Hno|done].
    - exfalso. apply (Qlt_irrefl 0.8). eapply Qle_lt_trans; [exact Hle|].
      eapply Qle_lt_trans; [apply Hshape; [by apply Hno|done]|done]. }
  destruct Hval as [-> | (entry & Hentry & ->)]; [done|].
  apply Hshape; [by apply Hno|].
  apply list_elem_of_In in Hentry.
  destruct (variation_hit user_input (snd entry)) eqn:He; [|done].
  assert (Ht : existsb (fun entry => variation_hit user_input (snd entry)) entries = true).
  { apply existsb_exists. eauto. }
  congruence.
Qed.

(** The scenarios of the design document on the shipped corpus: an
    exact match, a variation-only match and a keyword-only match. *)
Lemma corpus_matcher_scenarios :
  let st := init false in
  _find_best_intent_match st "hello" = (Some "greeting", 0.9%Q, "Hi there! How can I help you today?")
  /\ fst (_find_best_intent_match st "status of order") = (Some "order_status", 0.8%Q)
  /\ fst (_find_best_intent_match st "where is my order #12345?")
     = (Some "order_status", Qmin 0.7 (2 * 0.2))
  /\ _find_best_intent_match st "xyz" = (None, 0.0%Q, "").
Proof. vm_compute. repeat split. Qed.

End CorpusMatcher.

(** ** Range of the confidence *)

Section Confidence.
Import Env.

Lemma initialize_intents_names :
  Forall (fun item : string * CustomerSupportChatbot.intent_data => fst item <> "fallback")
    CustomerSupportChatbot._initialize_intents.
Proof. unfold CustomerSupportChatbot._initialize_intents. repeat constructor; done. Qed.

Lemma get_openai_response_confidence (w : world) (st : OpenAIChatbot.state)
    (user_message context : string) (r : OpenAIChatbot.response) (st' : OpenAIChatbot.state) :
  OpenAIChatbot.get_openai_response w st user_message context = Some (r, st') ->
  OpenAIChatbot.confidence r = 0.95%Q \/ OpenAIChatbot.confidence r = 0.5%Q.
Proof.
  assert (Hfb : forall r0 s0,
    (OpenAIChatbot._get_fallback_response w user_message ≫= fun r1 => Some (r1, st))
      = Some (r0, s0) -> OpenAIChatbot.confidence r0 = 0.5%Q).
  { unfold OpenAIChatbot._get_fallback_response. intros r0 s0.
    destruct (Py.choice (draw w) OpenAIChatbot.fallback_responses) as [x|]; simpl.
    - by intros [= <- _].
    - intros [=]. }
  unfold OpenAIChatbot.get_openai_response.
  destruct (OpenAIChatbot.client st); simpl.
  - destruct (create w _).
    + intros [= <- _]. by left.
    + intros H. right. by eapply Hfb.
  - intros H. right. by eapply Hfb.
Qed.

(** Every result has its confidence in [0.0, 1.0]: those of the keyword
    classifier, of the corpus matcher and of both [process_message]
    entry points. The keyword classifier returns 0.0 exactly when no
    keyword of the catalog occurs in the lowered input, which on the
    shipped catalog is exactly when it resolves to the ["fallback"]
    sentinel; the corpus matcher returns 0.0 exactly when it found no
    candidate (intent [None]). *)
Lemma strategy_confidence :
  (forall (catalog : list (string * CustomerSupportChatbot.intent_data)) (user_input : string),
     let '(intent, confidence) :=
       CustomerSupportChatbot._find_best_intent catalog user_input in
     (0 <= confidence <= 1)%Q
     /\ ((confidence == 0)%Q <->
         Forall (fun item =>
                   CustomerSupportChatbot.keyword_score
                     (CustomerSupportChatbot.keywords (snd item)) (Py.lower user_input) = 0)
           catalog))
  /\ (forall user_input : string,
        let '(intent, confidence) :=
          CustomerSupportChatbot._find_best_intent
            CustomerSupportChatbot._initialize_intents user_input in
        (confidence == 0)%Q <-> intent = "fallback")
  /\ (forall (st : EnhancedChatbotWithDataset.state) (user_input : string),
        let '(best_intent, best_confidence, _) :=
          EnhancedChatbotWithDataset._find_best_intent_match st user_input in
        (0 <= best_confidence <= 1)%Q
        /\ ((best_confidence == 0)%Q <-> best_intent = None))
  /\ (forall (w : world) (st : EnhancedChatbotWithDataset.state) (user_input : string)
             (user_id : option string) (use_openai : bool),
        let r := fst (EnhancedChatbotWithDataset.process_message
                        w st user_input user_id use_openai) in
        (0 <= EnhancedChatbotWithDataset.confidence r <= 1)%Q)
  /\ (forall (w : world) (st : CustomerSupportChatbot.state) (user_input : string)
             (session_id : option string),
        let r := fst (CustomerSupportChatbot.process_message w st user_input session_id) in
        (0 <= CustomerSupportChatbot.confidence r <= 1)%Q).
Proof.
  assert (Hkw : forall catalog user_input,
    let '(intent, confidence) :=
      CustomerSupportChatbot._find_best_intent catalog user_input in
    (0 <= confidence <= 1)%Q
    /\ ((confidence == 0)%Q <->
        Forall (fun item =>
                  CustomerSupportChatbot.keyword_score
                    (CustomerSupportChatbot.keywords (snd item)) (Py.lower user_input) = 0)
          catalog)
    /\ ((confidence = 0.0%Q /\ intent = "fallback")
        \/ exists item, item ∈ catalog /\ intent = fst item /\ (0 < confidence)%Q)).
  { intros catalog user_input. unfold CustomerSupportChatbot._find_best_intent.
    destruct (best_intent_scan catalog (Py.lower user_input))
      as [[-> Hall] | (pre & item & post & -> & -> & Hpos & _ & _)].
    - split; [done|]. split; [|by left]. split; [intros _|done].
      eapply Forall_impl; [exact Hall|]. intros item H. simpl in H.
      by rewrite keyword_score_count.
    - cbv beta iota. rewrite (proj2 (Nat.ltb_lt 0 _) Hpos).
      destruct (confidence_of_score _ Hpos) as [Hr _].
      split; [split; [apply Qlt_le_weak|]; apply Hr|].
      split.
      + split.
        * intros Hz. rewrite Hz in Hr. by destruct Hr as [Hr _].
        * intros Hall. apply Forall_app in Hall as [_ Hall].
          apply Forall_cons in Hall as [Hz _]. rewrite keyword_score_count in Hz. lia.
      + right. exists item. split; [|split; [reflexivity|apply Hr]].
        apply elem_of_app. right. apply list_elem_of_here. }
  assert (Hm : forall st user_input,
    let '(best_intent, best_confidence, _) :=
      EnhancedChatbotWithDataset._find_best_intent_match st user_input in
    (0 <= best_confidence <= 1)%Q
    /\ ((best_confidence == 0)%Q <-> best_intent = None)).
  { intros st user_input.
    destruct (matcher_first_maximum st user_input)
      as [[-> _] | (pre & entry & post & _ & -> & Hpos & _)].
    - done.
    - pose proof (tier_confidence_range (EnhancedChatbotWithDataset.intent_mapping st)
                    user_input entry) as [H0 H9].
      split; [split; [done|]; eapply Qle_trans; [exact H9|done]|].
      split; [|done]. intros Hz. rewrite Hz in Hpos. done. }
  repeat apply conj.
  - intros catalog user_input. specialize (Hkw catalog user_input).
    destruct (CustomerSupportChatbot._find_best_intent catalog user_input).
    split; apply Hkw.
  - intros user_input.
    specialize (Hkw CustomerSupportChatbot._initialize_intents user_input).
    destruct (CustomerSupportChatbot._find_best_intent _ user_input) as [intent c].
    destruct Hkw as (_ & _ & [[-> ->] | (item & Hin & -> & Hpos)]); [done|].
    pose proof initialize_intents_names as Hn. rewrite Forall_forall in Hn.
    split.
    + intros Hz. rewrite Hz in Hpos. done.
    + intros Hname. by destruct (Hn item Hin).
  - exact Hm.
  - intros w st user_input user_id use_openai r. subst r.
    unfold EnhancedChatbotWithDataset.process_message.
    assert (Hcore : forall st0,
      (0 <= EnhancedChatbotWithDataset.confidence
              (fst (EnhancedChatbotWithDataset.process_core w st0 user_input user_id)) <= 1)%Q).
    { intros st0. unfold EnhancedChatbotWithDataset.process_core.
      rewrite process_with_enhanced_dataset_never_falls_back.
      specialize (Hm st0 (Py.lower user_input)).
      destruct (EnhancedChatbotWithDataset._find_best_intent_match _ _) as [[i c] t].
      simpl. apply Hm. }
    destruct (use_openai && _); [|apply Hcore].
    unfold EnhancedChatbotWithDataset.try_openai.
    destruct (OpenAIChatbot.get_openai_response _ _ _ _) as [[r o]|] eqn:Hr; simpl;
      [|apply Hcore].
    apply get_openai_response_confidence in Hr as [-> | ->]; done.
  - intros w st user_input session_id r. subst r.
    unfold CustomerSupportChatbot.process_message.
    destruct (negb _); [done|].
    specialize (Hkw (CustomerSupportChatbot.intents st) user_input).
    destruct (CustomerSupportChatbot._find_best_intent _ _) as [intent c].
    destruct (CustomerSupportChatbot._generate_response _ _ _ _); simpl; [apply Hkw|done].
Qed.

End Confidence.

(** ** Instances on the shipped data *)

Section Instances.
Import Env.

(** 101 turns pushed on an empty history: the first one is gone, the
    other 100 remain in order; 11 records in the baseline history: the
    report shows the last 10. *)
Lemma rolling_window_fifo_witness :
  let turn := fun n : nat =>
    EnhancedChatbotWithDataset.Turn "t" None (pretty n) "" "core" 0.9 in
  let conversation := fun n : nat =>
    CustomerSupportChatbot.Conversation "t" "default" (pretty n) "fallback" "" 0.0 0 in
  let a := CustomerSupportChatbot.Analytics 11 11 0 ∅ (replicate 11 0%Q) in
  (length (map turn (seq 1 100)) = 100
   /\ fold_left EnhancedChatbotWithDataset.push_history ([turn 0] ++ map turn (seq 1 100)) []
      = map turn (seq 1 100))
  /\ (length (map conversation (seq 1 10)) = 10
      /\ exists r,
           CustomerSupportChatbot.get_analytics
             (CustomerSupportChatbot.State ([conversation 0] ++ map conversation (seq 1 10))
                a CustomerSupportChatbot._initialize_intents) = Some r
           /\ CustomerSupportChatbot.r_recent_conversations r = map conversation (seq 1 10)).
Proof.
  intros turn conversation a.
  assert (H100 : length (map turn (seq 1 100)) = 100) by reflexivity.
  assert (H10 : length (map conversation (seq 1 10)) = 10) by reflexivity.
  split.
  - split; [exact H100|].
    exact (proj1 (proj2 rolling_window_fifo) [turn 0] (map turn (seq 1 100)) H100).
  - split; [exact H10|].
    refine (proj2 (proj2 (proj2 (proj2 rolling_window_fifo)))
              [conversation 0] (map conversation (seq 1 10)) a
              CustomerSupportChatbot._initialize_intents H10 _).
    split; reflexivity.
Defined.

End Instances.

(** ** The corpus index and the dataset tools *)

Section Dataset.
Import DatasetIntegrator EnhancedChatbotWithDataset.

Lemma dict_get_dict_append {V : Type} (d : list (string * list V)) (k i : string) (x : V) :
  Py.dict_get (dict_append d k x) i []
    = if String.eqb k i then Py.dict_get d i [] ++ [x] else Py.dict_get d i [].
Proof.
  induction d as [|[k' xs] d IH]; simpl.
  - by destruct (String.eqb k i).
  - destruct (String.eqb_spec k' k) as [->|Hne]; simpl.
    + by destruct (String.eqb k i).
    + rewrite IH. destruct (String.eqb_spec k' i) as [->|_]; [|done].
      by rewrite (proj2 (String.eqb_neq k i)) by done.
Qed.

Lemma dict_mem_dict_append {V : Type} (d : list (string * list V)) (k i : string) (x : V) :
  Py.dict_mem (dict_append d k x) i = Py.dict_mem d i || String.eqb k i.
Proof.
  unfold Py.dict_mem.
  induction d as [|[k' xs] d IH]; simpl; [by rewrite orb_false_r|].
  destruct (String.eqb_spec k' k) as [->|Hne]; simpl.
  - destruct (String.eqb k i); simpl; [done|]. by rewrite orb_false_r.
  - rewrite IH. by rewrite orb_assoc.
Qed.

Lemma get_intent_examples_app (td1 td2 : list dialog) (intent : string) :
  get_intent_examples (td1 ++ td2) intent
    = get_intent_examples td1 intent ++ get_intent_examples td2 intent.
Proof. unfold get_intent_examples. apply filter_app. Qed.

(** X1: [_load_enhanced_responses] files every dialog under its own
    intent and keeps the dataset order: what is stored for an intent is
    the list of the dialogs [get_intent_examples] returns for it, each
    with the variations generated from its input; an intent has an
    entry exactly when the dataset holds a dialog for it. *)
Theorem load_enhanced_responses_groups (training_data : list dialog) (intent : string) :
  Py.dict_get (_load_enhanced_responses training_data) intent []
    = map (fun ex => Example (d_input ex) (d_output ex)
                       (generate_variations (d_input ex) intent))
          (get_intent_examples training_data intent)
  /\ Py.dict_mem (_load_enhanced_responses training_data) intent
     = match get_intent_examples training_data intent with
       | [] => false
       | _ :: _ => true
       end.
Proof.
  unfold _load_enhanced_responses.
  set (step := fun (er : list (string * list example)) (ex : dialog) =>
         dict_append er (d_intent ex)
           (Example (d_input ex) (d_output ex)
              (generate_variations (d_input ex) (d_intent ex)))).
  assert (Hget : forall td d,
    Py.dict_get (fold_left step td d) intent []
      = Py.dict_get d intent []
        ++ map (fun ex => Example (d_input ex) (d_output ex)
                            (generate_variations (d_input ex) intent))
             (get_intent_examples td intent)).
  { induction td as [|ex td IH]; intros d; simpl.
    - by rewrite app_nil_r.
    - rewrite IH. unfold step. rewrite dict_get_dict_append.
      unfold get_intent_examples. rewrite filter_cons.
      destruct (String.eqb_spec (d_intent ex) intent) as [Heq|Hne].
      + rewrite decide_True by done. simpl. rewrite <- app_assoc. simpl. by rewrite Heq.
      + by rewrite decide_False by done. }
  assert (Hmem : forall td d,
    Py.dict_mem (fold_left step td d) intent
      = Py.dict_mem d intent
        || match get_intent_examples td intent with [] => false | _ :: _ => true end).
  { induction td as [|ex td IH]; intros d; simpl.
    - by rewrite orb_false_r.
    - rewrite IH. unfold step. rewrite dict_mem_dict_append.
      unfold get_intent_examples. rewrite filter_cons.
      destruct (String.eqb_spec (d_intent ex) intent) as [Heq|Hne].
      + rewrite decide_True by done. by rewrite !orb_true_r.
      + rewrite decide_False by done. by rewrite orb_false_r. }
  split.
  - by rewrite Hget.
  - by rewrite Hmem.
Qed.

Lemma corpus_entries_dict_append (d : list (string * list example)) (k : string) (x : example) :
  Tiers.corpus_entries (dict_append d k x) ≡ₚ Tiers.corpus_entries d ++ [(k, x)].
Proof.
  unfold Tiers.corpus_entries.
  induction d as [|[k' xs] d IH]; simpl; [done|].
  destruct (String.eqb_spec k' k) as [->|Hne]; simpl.
  - rewrite map_app. simpl. rewrite <- !app_assoc.
    apply Permutation_app_head. apply Permutation_app_comm.
  - rewrite IH. by rewrite <- app_assoc.
Qed.

Lemma keys_dict_append {V : Type} (d : list (string * list V)) (k : string) (x : V) :
  map fst (dict_append d k x)
    = if Py.dict_mem d k then map fst d else map fst d ++ [k].
Proof.
  unfold Py.dict_mem.
  induction d as [|[k' xs] d IH]; simpl; [done|].
  destruct (String.eqb_spec k' k) as [->|Hne]; simpl; [done|].
  rewrite IH. by destruct (existsb _ d).
Qed.

Lemma dict_mem_keys {V : Type} (d : list (string * V)) (k : string) :
  Py.dict_mem d k = true <-> k ∈ map fst d.
Proof.
  unfold Py.dict_mem. induction d as [|[k' v] d IH]; simpl.
  - split; [done|]. intros H. by apply elem_of_nil in H.
  - rewrite orb_true_iff, IH, elem_of_cons.
    destruct (String.eqb_spec k' k) as [->|Hne]; [tauto|].
    split; intros [H|H]; try done; try tauto.
Qed.

(** Loading more dialogs into a corpus index whose intents are distinct
    adds exactly those dialogs and keeps the intents distinct. *)
Lemma load_fold_entries (td : list dialog) (d : list (string * list example)) :
  NoDup (map fst d) ->
  let er := fold_left
              (fun er ex =>
                 dict_append er (d_intent ex)
                   (Example (d_input ex) (d_output ex)
                      (generate_variations (d_input ex) (d_intent ex)))) td d in
  Tiers.corpus_entries er
    ≡ₚ Tiers.corpus_entries d
       ++ map (fun ex => (d_intent ex,
                          Example (d_input ex) (d_output ex)
                            (generate_variations (d_input ex) (d_intent ex)))) td
  /\ NoDup (map fst er).
Proof.
  revert d. induction td as [|ex td IH]; intros d Hd; cbn [fold_left map].
  - by rewrite app_nil_r.
  - destruct (IH (dict_append d (d_intent ex)
                    (Example (d_input ex) (d_output ex)
                       (generate_variations (d_input ex) (d_intent ex))))) as [Hp Hn].
    + rewrite keys_dict_append.
      destruct (Py.dict_mem d (d_intent ex)) eqn:Hm; [done|].
      apply NoDup_app. split; [done|]. split; [|apply NoDup_singleton].
      intros k Hk Hk'. apply list_elem_of_singleton in Hk' as ->.
      apply dict_mem_keys in Hk. congruence.
    + split; [|exact Hn]. rewrite Hp, corpus_entries_dict_append.
      by rewrite <- app_assoc.
Qed.

(** X2: the corpus index holds every dialog of the dataset exactly once
    (its entries are a permutation of the dataset), and no intent has
    two groups. *)
Theorem load_enhanced_responses_complete (training_data : list dialog) :
  Tiers.corpus_entries (_load_enhanced_responses training_data)
    ≡ₚ map (fun ex => (d_intent ex,
                        Example (d_input ex) (d_output ex)
                          (generate_variations (d_input ex) (d_intent ex))))
         training_data
  /\ NoDup (map fst (_load_enhanced_responses training_data)).
Proof.
  destruct (load_fold_entries training_data []) as [Hp Hn]; [constructor|].
  split; [exact Hp|exact Hn].
Qed.

Lemma dict_get_dict_set {V : Type} (d : list (string * V)) (k i : string) (v default : V) :
  Py.dict_get (Py.dict_set d k v) i default
    = if String.eqb k i then v else Py.dict_get d i default.
Proof.
  induction d as [|[k' v'] d IH]; simpl; [done|].
  destruct (String.eqb_spec k' k) as [->|Hne]; simpl.
  - by destruct (String.eqb k i).
  - rewrite IH. destruct (String.eqb_spec k' i) as [->|_]; [|done].
    by rewrite (proj2 (String.eqb_neq k i)) by done.
Qed.

Lemma fold_add_sum (l : list nat) (n : nat) : fold_left Nat.add l n = n + sum_list l.
Proof.
  revert n. induction l as [|x l IH]; intros n; simpl; [lia|]. rewrite IH. lia.
Qed.

Lemma sum_values_increment (d : list (string * nat)) (k : string) :
  sum_list (map snd (Py.dict_set d k (Py.dict_get d k 0 + 1)))
    = sum_list (map snd d) + 1.
Proof.
  induction d as [|[k' v'] d IH]; simpl; [done|].
  destruct (String.eqb_spec k' k) as [->|Hne]; simpl; [lia|].
  rewrite IH. lia.
Qed.

Lemma count_intents_get (training_data : list dialog) (intent : string) :
  Py.dict_get (count_intents training_data) intent 0
    = length (get_intent_examples training_data intent).
Proof.
  unfold count_intents.
  assert (H : forall td d,
    Py.dict_get
      (fold_left
         (fun distribution example =>
            Py.dict_set distribution (d_intent example)
              (Py.dict_get distribution (d_intent example) 0 + 1)) td d) intent 0
      = Py.dict_get d intent 0 + length (get_intent_examples td intent)).
  { induction td as [|ex td IH]; intros d; simpl; [lia|].
    rewrite IH, dict_get_dict_set.
    unfold get_intent_examples. rewrite filter_cons.
    destruct (String.eqb_spec (d_intent ex) intent) as [Heq|Hne].
    - rewrite decide_True by done. simpl. rewrite Heq. lia.
    - by rewrite decide_False by done. }
  by rewrite H.
Qed.

Lemma count_intents_sum (training_data : list dialog) :
  sum_list (map snd (count_intents training_data)) = length training_data.
Proof.
  unfold count_intents.
  assert (H : forall td d,
    sum_list (map snd
      (fold_left
         (fun distribution example =>
            Py.dict_set distribution (d_intent example)
              (Py.dict_get distribution (d_intent example) 0 + 1)) td d))
      = sum_list (map snd d) + length td).
  { induction td as [|ex td IH]; intros d; simpl; [lia|].
    rewrite IH, sum_values_increment. lia. }
  by rewrite H.
Qed.

Lemma dict_set_nonempty {V : Type} (d : list (string * V)) (k : string) (v : V) :
  Py.dict_set d k v <> [].
Proof. destruct d as [|[k' v'] d]; simpl; [done|]. by destruct (String.eqb k' k). Qed.

Lemma count_intents_nil (training_data : list dialog) :
  count_intents training_data = [] <-> training_data = [].
Proof.
  split; [|by intros ->].
  destruct training_data as [|ex td]; [done|]. intros H. exfalso.
  pose proof (count_intents_sum (ex :: td)) as Hs. rewrite H in Hs. done.
Qed.

Lemma dict_set_positive (d : list (string * nat)) (k : string) (v : nat) :
  Forall (fun item => 1 <= snd item) d -> 1 <= v ->
  Forall (fun item => 1 <= snd item) (Py.dict_set d k v).
Proof.
  intros Hd Hv. induction d as [|[k' v'] d IH]; simpl.
  - by repeat constructor.
  - apply Forall_cons in Hd as [Hk Hd].
    destruct (String.eqb k' k); constructor; auto.
Qed.

(** Every intent of the distribution has at least one dialog, so there
    are no more intents than dialogs. *)
Lemma count_intents_length (training_data : list dialog) :
  length (count_intents training_data) <= length training_data.
Proof.
  assert (Hpos : Forall (fun item => 1 <= snd item) (count_intents training_data)).
  { unfold count_intents.
    assert (H : forall td d,
      Forall (fun item : string * nat => 1 <= snd item) d ->
      Forall (fun item : string * nat => 1 <= snd item)
        (fold_left
           (fun distribution example =>
              Py.dict_set distribution (d_intent example)
                (Py.dict_get distribution (d_intent example) 0 + 1)) td d)).
    { induction td as [|ex td IH]; intros d Hd; simpl; [done|].
      apply IH. apply dict_set_positive; [done|lia]. }
    apply H. constructor. }
  rewrite <- (count_intents_sum training_data).
  induction Hpos as [|item d Hitem _ IH]; simpl; lia.
Qed.

(** X3: the intent distribution of [analyze_dataset] counts, for every
    intent, the dialogs [get_intent_examples] returns for it; the counts
    add up to [total_examples], the size of the dataset. The average
    number of examples per intent is 0 on an empty dataset and otherwise
    lies between 1 and [total_examples]. *)
Theorem analyze_dataset_counts (training_data : list dialog) (intent : string) :
  let a := analyze_dataset training_data in
  Py.dict_get (an_intent_distribution a) intent 0
    = length (get_intent_examples training_data intent)
  /\ sum_list (map snd (an_intent_distribution a)) = an_total_examples a
  /\ an_total_examples a = length training_data
  /\ match training_data with
     | [] => (an_average_examples_per_intent a == 0)%Q
     | _ :: _ =>
         (1 <= an_average_examples_per_intent a
            <= inject_Z (Z.of_nat (an_total_examples a)))%Q
     end.
Proof.
  assert (Hshape : an_intent_distribution (analyze_dataset training_data)
                   = count_intents training_data
                   /\ an_total_examples (analyze_dataset training_data)
                      = length training_data).
  { unfold analyze_dataset. by destruct (count_intents training_data). }
  destruct Hshape as [Hd Ht]. cbv zeta. rewrite Hd, Ht.
  split; [apply count_intents_get|].
  split; [apply count_intents_sum|]. split; [done|].
  pose proof (count_intents_length training_data) as Hlen.
  unfold analyze_dataset.
  destruct (count_intents training_data) as [|p l] eqn:Hc.
  - apply count_intents_nil in Hc as ->. done.
  - destruct training_data as [|ex td] eqn:Htd; [done|]. rewrite <- Htd in *.
    cbn [an_average_examples_per_intent].
    rewrite fold_add_sum, Nat.add_0_l, <- Hc, count_intents_sum.
    assert (Hl : 1 <= length (count_intents training_data)) by (rewrite Hc; simpl; lia).
    assert (Hq : (0 < inject_Z (Z.of_nat (length (count_intents training_data))))%Q).
    { unfold Qlt. simpl. lia. }
    split.
    + apply Qle_shift_div_l; [exact Hq|].
      rewrite Qmult_1_l, <- Zle_Qle, Hc. lia.
    + apply Qle_shift_div_r; [exact Hq|].
      rewrite <- inject_Z_mult, <- Zle_Qle. nia.
Qed.




(** X5: [get_random_example] returns [None] exactly when no dialog
    qualifies, and otherwise a dialog of the dataset that carries the
    requested intent; an absent intent and the empty string both draw
    from the whole dataset. *)
Theorem get_random_example_member (draw : nat) (training_data : list dialog)
    (intent : option string) :
  let pool :=
    match intent with
    | Some (String c i) => get_intent_examples training_data (String c i)
    | _ => training_data
    end in
  match get_random_example draw training_data intent with
  | Some example =>
      example ∈ training_data
      /\ match intent with
         | Some (String c i) => d_intent example = String c i
         | _ => True
         end
  | None => pool = []
  end.
Proof.
  assert (Hdraw : forall pool : list dialog,
    match (match pool with [] => None | _ :: _ => Py.choice draw pool end) with
    | Some example => example ∈ pool
    | None => pool = []
    end).
  { intros [|ex rest]; [done|].
    by destruct (choice_nonempty draw (ex :: rest)) as (x & -> & Hin). }
  unfold get_random_example.
  destruct intent as [[|c i]|]; cbn [Py.truthy_str].
  - specialize (Hdraw training_data). by destruct (match training_data with [] => _ | _ => _ end).
  - specialize (Hdraw (get_intent_examples training_data (String c i))).
    destruct (match get_intent_examples training_data (String c i) with [] => _ | _ => _ end);
      [|done].
    unfold get_intent_examples in Hdraw. by apply list_elem_of_filter in Hdraw as [? ?].
  - specialize (Hdraw training_data). by destruct (match training_data with [] => _ | _ => _ end).
Qed.

Lemma generate_variations_head (base_input intent : string) :
  generate_variations base_input intent
    = base_input :: tail (generate_variations base_input intent).
Proof.
  unfold generate_variations.
  by destruct (String.eqb intent "greeting"), (String.eqb intent "order_status"),
    (String.eqb intent "shipping").
Qed.

Lemma dict_lookup_app {V : Type} (d d' : list (string * V)) (i : string) :
  Py.dict_lookup (d ++ d') i
    = match Py.dict_lookup d i with
      | Some v => Some v
      | None => Py.dict_lookup d' i
      end.
Proof.
  induction d as [|[k v] d IH]; simpl; [done|]. by destruct (String.eqb k i).
Qed.

Lemma dict_mem_lookup {V : Type} (d : list (string * V)) (k : string) :
  Py.dict_mem d k = match Py.dict_lookup d k with Some _ => true | None => false end.
Proof.
  unfold Py.dict_mem. induction d as [|[k' v] d IH]; simpl; [done|].
  by destruct (String.eqb k' k).
Qed.

Lemma lookup_append_example (d : list (string * intent_entry)) (k a b i : string) :
  Py.dict_lookup (append_example d k a b) i
    = match Py.dict_lookup d i with
      | Some e =>
          Some (if String.eqb k i
                then IntentEntry (ie_examples e ++ [a]) (ie_responses e ++ [b]) (ie_keywords e)
                else e)
      | None => None
      end.
Proof.
  induction d as [|[k' e] d IH]; simpl; [done|].
  destruct (String.eqb_spec k' k) as [->|Hne]; simpl.
  - destruct (String.eqb_spec k i) as [->|Hki]; [done|].
    by destruct (Py.dict_lookup d i).
  - destruct (String.eqb_spec k' i) as [->|Hki]; [|exact IH].
    by rewrite (proj2 (String.eqb_neq k i)) by done.
Qed.

Lemma lookup_append_variations (vs : list string) (d : list (string * intent_entry))
    (k b i : string) :
  Py.dict_lookup (fold_left (fun acc v => append_example acc k v b) vs d) i
    = match Py.dict_lookup d i with
      | Some e =>
          Some (if String.eqb k i
                then IntentEntry (ie_examples e ++ vs)
                       (ie_responses e ++ replicate (length vs) b) (ie_keywords e)
                else e)
      | None => None
      end.
Proof.
  revert d. induction vs as [|v vs IH]; intros d; simpl.
  - destruct (Py.dict_lookup d i) as [[ex rs kw]|]; [|done].
    destruct (String.eqb k i); [|done]. simpl. by rewrite !app_nil_r.
  - rewrite IH, lookup_append_example.
    destruct (Py.dict_lookup d i) as [e|]; [|done].
    destruct (String.eqb k i); [|done]. simpl. by rewrite <- !app_assoc.
Qed.

(** What one dialog adds to the training set. *)
Lemma lookup_training_step (d : list (string * intent_entry)) (x : dialog) (i : string) :
  Py.dict_lookup (training_step d x) i
    = if String.eqb (d_intent x) i
      then
        let vs := generate_variations (d_input x) i in
        Some (match Py.dict_lookup d i with
              | Some e =>
                  IntentEntry (ie_examples e ++ vs)
                    (ie_responses e ++ replicate (length vs) (d_output x)) (ie_keywords e)
              | None =>
                  IntentEntry vs (replicate (length vs) (d_output x))
                    (Py.dict_get DatasetIntegrator.intent_mapping i [])
              end)
      else Py.dict_lookup d i.
Proof.
  unfold training_step. rewrite lookup_append_variations, lookup_append_example.
  unfold ensure_intent. rewrite dict_mem_lookup.
  destruct (String.eqb_spec (d_intent x) i) as [->|Hne].
  - pose proof (generate_variations_head (d_input x) i) as Hh.
    destruct (generate_variations (d_input x) i) as [|h t]; [done|].
    cbn [tail] in Hh |- *. injection Hh as ->.
    destruct (Py.dict_lookup d i) as [e|] eqn:Hl.
    + rewrite Hl. cbn. by rewrite <- !app_assoc.
    + rewrite dict_lookup_app, Hl. cbn. by rewrite String.eqb_refl.
  - destruct (Py.dict_lookup d (d_intent x)) as [e|] eqn:Hl.
    + by destruct (Py.dict_lookup d i).
    + rewrite dict_lookup_app. simpl.
      rewrite (proj2 (String.eqb_neq (d_intent x) i)) by done.
      by destruct (Py.dict_lookup d i).
Qed.

(** X6: in the training set built by [create_enhanced_training_set] an
    intent has an entry exactly when the dataset holds a dialog for it.
    Its examples are the variations of its dialogs, dialog after dialog
    in dataset order (each dialog's own text first), its responses
    repeat each dialog's output once per variation, so both lists stay
    aligned, and its keywords are those of [intent_mapping]. *)
Theorem create_enhanced_training_set_entries (now : string)
    (training_data : list dialog) (intent : string) :
  let dialogs := get_intent_examples training_data intent in
  match Py.dict_lookup (ed_intents (create_enhanced_training_set now training_data)) intent with
  | Some entry =>
      dialogs <> []
      /\ ie_examples entry
         = concat (map (fun x => generate_variations (d_input x) intent) dialogs)
      /\ ie_responses entry
         = concat (map (fun x =>
                          replicate (length (generate_variations (d_input x) intent))
                            (d_output x)) dialogs)
      /\ length (ie_examples entry) = length (ie_responses entry)
      /\ ie_keywords entry = Py.dict_get DatasetIntegrator.intent_mapping intent []
  | None => dialogs = []
  end.
Proof.
  intros dialogs.
  assert (Hintents : ed_intents (create_enhanced_training_set now training_data)
                     = fold_left training_step training_data []).
  { unfold create_enhanced_training_set. by destruct (fold_left _ (fold_left _ _ _) _). }
  rewrite Hintents. subst dialogs. clear Hintents.
  assert (Hlen : forall l : list dialog,
    length (concat (map (fun x => generate_variations (d_input x) intent) l))
      = length (concat (map (fun x =>
                  replicate (length (generate_variations (d_input x) intent))
                    (d_output x)) l))).
  { induction l as [|x l IH]; simpl; [done|].
    by rewrite !length_app, length_replicate, IH. }
  induction training_data as [|x td IH] using rev_ind; [done|].
  rewrite fold_left_app, !get_intent_examples_app. cbn [fold_left].
  rewrite lookup_training_step.
  assert (Hx : get_intent_examples [x] intent
               = if String.eqb (d_intent x) intent then [x] else []).
  { unfold get_intent_examples. rewrite filter_cons, filter_nil.
    destruct (String.eqb_spec (d_intent x) intent) as [Heq|Hne].
    - by rewrite decide_True.
    - by rewrite decide_False. }
  rewrite !Hx. clear Hx.
  destruct (String.eqb (d_intent x) intent).
  - cbn zeta.
    destruct (Py.dict_lookup (fold_left training_step td []) intent) as [e|].
    + destruct IH as (Hne & Hex & Hrs & _ & Hkw). cbn [ie_examples ie_responses ie_keywords].
      rewrite !map_app, !concat_app. cbn [map concat]. rewrite !app_nil_r, Hex, Hrs.
      repeat split; try done.
      * intros H. by apply app_eq_nil in H as [_ ?].
      * rewrite !length_app, length_replicate. by rewrite Hlen.
    + rewrite IH. cbn [app map concat ie_examples ie_responses ie_keywords].
      rewrite !app_nil_r. repeat split; try done.
      by rewrite length_replicate.
  - rewrite !app_nil_r. exact IH.
Qed.

Lemma keys_append_example (d : list (string * intent_entry)) (k a b : string) :
  map fst (append_example d k a b) = map fst d.
Proof.
  induction d as [|[k' e] d IH]; simpl; [done|].
  destruct (String.eqb k' k); simpl; [done|]. by rewrite IH.
Qed.

Lemma keys_append_variations (vs : list string) (d : list (string * intent_entry))
    (k b : string) :
  map fst (fold_left (fun acc v => append_example acc k v b) vs d) = map fst d.
Proof.
  revert d. induction vs as [|v vs IH]; intros d; simpl; [done|].
  by rewrite IH, keys_append_example.
Qed.

Lemma keys_training_step (d : list (string * intent_entry)) (x : dialog) :
  map fst (training_step d x)
    = if Py.dict_mem d (d_intent x) then map fst d else map fst d ++ [d_intent x].
Proof.
  unfold training_step. rewrite keys_append_variations, keys_append_example.
  unfold ensure_intent. destruct (Py.dict_mem d (d_intent x)); [done|].
  by rewrite map_app.
Qed.

Lemma training_set_keys_nodup (training_data : list dialog) :
  NoDup (map fst (fold_left training_step training_data [])).
Proof.
  induction training_data as [|x td IH] using rev_ind; [constructor|].
  rewrite fold_left_app. cbn [fold_left]. rewrite keys_training_step.
  destruct (Py.dict_mem _ (d_intent x)) eqn:Hm; [done|].
  apply NoDup_app. split; [done|]. split; [|apply NoDup_singleton].
  intros k Hk Hk'. apply list_elem_of_singleton in Hk' as ->.
  apply dict_mem_keys in Hk. congruence.
Qed.

Lemma weight_append_example (d : list (string * intent_entry)) (k a b : string) :
  sum_list (map (fun item => length (ie_examples (snd item))) (append_example d k a b))
    = sum_list (map (fun item => length (ie_examples (snd item))) d)
      + (if Py.dict_mem d k then 1 else 0).
Proof.
  unfold Py.dict_mem.
  induction d as [|[k' e] d IH]; simpl; [done|].
  destruct (String.eqb k' k); simpl.
  - rewrite length_app. simpl. lia.
  - rewrite IH. lia.
Qed.

Lemma dict_mem_append_example (d : list (string * intent_entry)) (k a b i : string) :
  Py.dict_mem (append_example d k a b) i = Py.dict_mem d i.
Proof.
  rewrite !dict_mem_lookup, lookup_append_example. by destruct (Py.dict_lookup d i).
Qed.

Lemma weight_append_variations (vs : list string) (d : list (string * intent_entry))
    (k b : string) :
  sum_list (map (fun item => length (ie_examples (snd item)))
              (fold_left (fun acc v => append_example acc k v b) vs d))
    = sum_list (map (fun item => length (ie_examples (snd item))) d)
      + (if Py.dict_mem d k then length vs else 0).
Proof.
  revert d. induction vs as [|v vs IH]; intros d; simpl.
  - destruct (Py.dict_mem d k); lia.
  - rewrite IH, weight_append_example, dict_mem_append_example.
    destruct (Py.dict_mem d k); lia.
Qed.

Lemma weight_training_step (d : list (string * intent_entry)) (x : dialog) :
  sum_list (map (fun item => length (ie_examples (snd item))) (training_step d x))
    = sum_list (map (fun item => length (ie_examples (snd item))) d)
      + length (generate_variations (d_input x) (d_intent x)).
Proof.
  unfold training_step.
  rewrite weight_append_variations, dict_mem_append_example, weight_append_example.
  assert (Hm : Py.dict_mem (ensure_intent d (d_intent x)) (d_intent x) = true).
  { unfold ensure_intent. destruct (Py.dict_mem d (d_intent x)) eqn:Hd; [done|].
    unfold Py.dict_mem. rewrite existsb_app. simpl.
    by rewrite String.eqb_refl, orb_true_r. }
  rewrite Hm.
  assert (He : sum_list (map (fun item => length (ie_examples (snd item)))
                           (ensure_intent d (d_intent x)))
               = sum_list (map (fun item => length (ie_examples (snd item))) d)).
  { unfold ensure_intent. destruct (Py.dict_mem d (d_intent x)); [done|].
    rewrite map_app, sum_list_with_app. simpl. lia. }
  rewrite He.
  rewrite (generate_variations_head (d_input x) (d_intent x)) at 2. simpl. lia.
Qed.

Lemma dict_set_fresh {V : Type} (d : list (string * V)) (k : string) (v : V) :
  k ∉ map fst d -> Py.dict_set d k v = d ++ [(k, v)].
Proof.
  induction d as [|[k' v'] d IH]; simpl; [done|]. intros Hk.
  apply not_elem_of_cons in Hk as [Hne Hk].
  rewrite (proj2 (String.eqb_neq k' k)) by done. by rewrite IH.
Qed.

(** The second loop of [create_enhanced_training_set] on a dict, whose
    keys are distinct. *)
Lemma training_statistics (items : list (string * intent_entry))
    (distribution : list (string * nat)) (total : nat) :
  NoDup (map fst distribution ++ map fst items) ->
  fold_left
    (fun acc item =>
       let '(distribution, total) := acc in
       let '(intent, data) := item in
       (Py.dict_set distribution intent (length (ie_examples data)),
        total + length (ie_examples data)))
    items (distribution, total)
  = (distribution ++ map (fun item => (fst item, length (ie_examples (snd item)))) items,
     total + sum_list (map (fun item => length (ie_examples (snd item))) items)).
Proof.
  revert distribution total.
  induction items as [|[k e] items IH]; intros distribution total Hnd; simpl.
  - by rewrite app_nil_r, Nat.add_0_r.
  - apply NoDup_app in Hnd as (Hd & Hdisj & Hitems). simpl in Hdisj, Hitems.
    apply NoDup_cons in Hitems as [Hk Hitems].
    rewrite dict_set_fresh.
    + rewrite IH.
      * rewrite <- app_assoc. simpl. f_equal. lia.
      * rewrite map_app. simpl. rewrite <- app_assoc. simpl.
        apply NoDup_app. split; [done|]. split.
        -- intros j Hj Hj'. apply (Hdisj j Hj). done.
        -- by constructor.
    + intros Hin. apply (Hdisj k Hin). apply list_elem_of_here.
Qed.

(** X7: [create_enhanced_training_set] counts every dialog once per
    variation: [total_examples] is the sum, over the dialogs, of the
    number of variations of their input, and it is also the sum of the
    intent distribution, which lists every intent of the training set,
    in its order, with the length of its example list. *)
Theorem create_enhanced_training_set_totals (now : string) (training_data : list dialog) :
  let e := create_enhanced_training_set now training_data in
  ed_total_examples e
    = sum_list (map (fun x => length (generate_variations (d_input x) (d_intent x)))
                  training_data)
  /\ ed_intent_distribution e
     = map (fun item => (fst item, length (ie_examples (snd item)))) (ed_intents e)
  /\ sum_list (map snd (ed_intent_distribution e)) = ed_total_examples e
  /\ ed_created_at e = now.
Proof.
  unfold create_enhanced_training_set.
  rewrite (training_statistics (fold_left training_step training_data []) [] 0)
    by apply training_set_keys_nodup.
  cbn [ed_total_examples ed_intent_distribution ed_intents ed_created_at app Nat.add].
  assert (Hw : forall td d,
    sum_list (map (fun item => length (ie_examples (snd item)))
                (fold_left training_step td d))
    = sum_list (map (fun item => length (ie_examples (snd item))) d)
      + sum_list (map (fun x => length (generate_variations (d_input x) (d_intent x))) td)).
  { induction td as [|x td IH]; intros d; simpl; [lia|].
    rewrite IH, weight_training_step. lia. }
  repeat split.
  - by rewrite Hw.
  - by rewrite map_map.
Qed.

(** X8: on a corpus built by [_load_enhanced_responses] the variation
    tier can decide only for the three intents that have variations: a
    match returned with confidence 0.8 is a greeting, order_status or
    shipping match. For the other intents the only variation is the
    example's own text, which the exact tier already covers. *)
Theorem variation_tier_intents (st : state) (training_data : list dialog)
    (user_input : string) :
  enhanced_responses st = _load_enhanced_responses training_data ->
  (snd (fst (_find_best_intent_match st user_input)) == 0.8)%Q ->
  fst (fst (_find_best_intent_match st user_input))
    ∈ [Some "greeting"; Some "order_status"; Some "shipping"].
Proof.
  intros Hload Hconf.
  destruct (matcher_first_maximum st user_input)
    as [[Hr _] | (pre & [intent ex] & post & Hcat & Hr & Hpos & _)];
    rewrite Hr in Hconf |- *; simpl in Hconf |- *; [done|].
  assert (Hin : (intent, ex) ∈ Tiers.corpus_entries (enhanced_responses st)).
  { rewrite Hcat. apply elem_of_app. right. apply list_elem_of_here. }
  rewrite Hload in Hin.
  unfold _load_enhanced_responses in Hin.
  rewrite (proj1 (load_fold_entries training_data [] (NoDup_nil_2 (A:=string)))) in Hin.
  cbn [Tiers.corpus_entries map concat app] in Hin.
  apply list_elem_of_fmap in Hin as (x & [= -> ->] & _).
  unfold Tiers.tier_confidence in Hconf.
  destruct (Tiers.exact_hit user_input _) eqn:Hexact; [done|].
  destruct (Tiers.variation_hit user_input _) eqn:Hvar.
  - unfold Tiers.variation_hit, Tiers.exact_hit in Hvar, Hexact.
    cbn [e_variations e_input] in Hvar, Hexact.
    unfold generate_variations in Hvar.
    destruct (String.eqb_spec (d_intent x) "greeting") as [->|_]; [set_solver|].
    destruct (String.eqb_spec (d_intent x) "order_status") as [->|_]; [set_solver|].
    destruct (String.eqb_spec (d_intent x) "shipping") as [->|_]; [set_solver|].
    simpl in Hvar. rewrite Hexact in Hvar. done.
  - exfalso.
    destruct (0 <? _); [|done].
    pose proof (keyword_confidence_le
                  (Tiers.hits (intent_mapping st) user_input (d_intent x))) as Hle.
    rewrite Hconf in Hle. done.
Qed.

Lemma variation_tier_intents_witness :
  let st := init false in
  (snd (fst (_find_best_intent_match st "status of order")) == 0.8)%Q
  /\ fst (fst (_find_best_intent_match st "status of order"))
     ∈ [Some "greeting"; Some "order_status"; Some "shipping"].
Proof.
  assert (Hconf : (snd (fst (_find_best_intent_match (init false) "status of order"))
                   == 0.8)%Q) by (vm_compute; reflexivity).
  split; [exact Hconf|].
  exact (variation_tier_intents (init false) DatasetIntegrator.get_training_data
           "status of order" eq_refl Hconf).
Defined.

End Dataset.

(** ** The generative adapter *)

Section Adapter.
Import Env OpenAIChatbot.

Lemma last_n_length_min {A : Type} (n : nat) (l : list A) :
  length (Py.last_n n l) = min n (length l).
Proof. unfold Py.last_n. rewrite length_drop. lia. Qed.


(** X10: a call of the adapter either completes or falls back. When the
    client is configured and the remote call completes, the reply is the
    stripped content at confidence 0.95, and the exchange is appended to
    the adapter's history. In every other case (no client, or the call
    raised) the adapter returns one of its four canned texts with intent
    "fallback" at confidence 0.5 and leaves its state as it was; it
    never raises. *)
Theorem get_openai_response_cases (w : world) (st : state)
    (user_message context : string) :
  match get_openai_response w st user_message context with
  | Some (r, st') =>
      match (if client st then create w (build_messages st user_message context)
             else Raised) with
      | Completed content =>
          r = Response (Py.strip content) "openai_response" 0.95 0.0 "gpt-3.5-turbo"
          /\ st' = State true
                    (conversation_history st
                       ++ [Exchange user_message (Py.strip content) (now w)])
      | Raised =>
          st' = st
          /\ text r ∈ fallback_responses
          /\ r = Response (text r) "fallback" 0.5 0.0 "fallback"
      end
  | None => False
  end.
Proof.
  destruct (choice_nonempty (draw w) fallback_responses) as (x & Hx & Hin); [done|].
  unfold get_openai_response, _get_fallback_response. rewrite Hx.
  destruct (client st) eqn:Hc; cbn.
  - destruct (create w _); cbn; done.
  - done.
Qed.

End Adapter.

(** ** The enhanced chatbot beyond single requests *)

Section Enhanced.
Import Env EnhancedChatbotWithDataset.

Lemma get_openai_response_client (w : world) (o o' : OpenAIChatbot.state)
    (user_message context : string) (r : OpenAIChatbot.response) :
  OpenAIChatbot.get_openai_response w o user_message context = Some (r, o') ->
  OpenAIChatbot.client o' = OpenAIChatbot.client o.
Proof.
  destruct (choice_nonempty (draw w) OpenAIChatbot.fallback_responses) as (x & Hx & _);
    [done|].
  unfold OpenAIChatbot.get_openai_response, OpenAIChatbot._get_fallback_response.
  rewrite Hx.
  destruct (OpenAIChatbot.client o) eqn:Hc; cbn.
  - destruct (create w _); cbn; by intros [= _ <-].
  - by intros [= _ <-].
Qed.

(** What a [process_message] call leaves alone, and the one latency
    sample it adds. *)
Lemma process_message_frame (w : world) (st : state)
    (user_input : string) (user_id : option string) (use_openai : bool) :
  let st' := snd (process_message w st user_input user_id use_openai) in
  core_chatbot st' = core_chatbot st
  /\ intent_mapping st' = intent_mapping st
  /\ training_data st' = training_data st
  /\ enhanced_responses st' = enhanced_responses st
  /\ OpenAIChatbot.client (openai_chatbot st') = OpenAIChatbot.client (openai_chatbot st)
  /\ intent_distribution (analytics_ st') = intent_distribution (analytics_ st)
  /\ user_satisfaction (analytics_ st') = user_satisfaction (analytics_ st)
  /\ response_times (analytics_ st') = response_times (analytics_ st) ++ [elapsed w].
Proof.
  assert (Hcore :
    let st0 := with_analytics st (bump_total (analytics_ st)) in
    let st' := snd (process_core w st0 user_input user_id) in
    core_chatbot st' = core_chatbot st
    /\ intent_mapping st' = intent_mapping st
    /\ training_data st' = training_data st
    /\ enhanced_responses st' = enhanced_responses st
    /\ OpenAIChatbot.client (openai_chatbot st') = OpenAIChatbot.client (openai_chatbot st)
    /\ intent_distribution (analytics_ st') = intent_distribution (analytics_ st)
    /\ user_satisfaction (analytics_ st') = user_satisfaction (analytics_ st)
    /\ response_times (analytics_ st') = response_times (analytics_ st) ++ [elapsed w]).
  { unfold process_core.
    rewrite process_with_enhanced_dataset_never_falls_back.
    by destruct (_find_best_intent_match _ _) as [[i c] t]. }
  unfold process_message.
  destruct (use_openai && _); [|exact Hcore].
  unfold try_openai.
  destruct (get_openai_response_returns w
              (openai_chatbot (with_analytics st (bump_total (analytics_ st))))
              user_input "") as [[r o] Hr].
  rewrite Hr. cbn. apply get_openai_response_client in Hr. done.
Qed.

Lemma enhanced_run_frame (client : bool) (qs : list Runs.request) :
  let st := Runs.enhanced_run (init client) qs in
  core_chatbot st = CustomerSupportChatbot.init
  /\ intent_mapping st = DatasetIntegrator.intent_mapping
  /\ training_data st = DatasetIntegrator.get_training_data
  /\ enhanced_responses st = enhanced_responses (init client)
  /\ OpenAIChatbot.client (openai_chatbot st) = client
  /\ intent_distribution (analytics_ st) = ∅
  /\ user_satisfaction (analytics_ st) = []
  /\ response_times (analytics_ st) = map (fun q => elapsed (Runs.q_world q)) qs.
Proof.
  induction qs as [|q qs IH] using rev_ind; [done|].
  unfold Runs.enhanced_run in *. rewrite fold_left_app. cbn [fold_left].
  set (prev := fold_left Runs.enhanced_step qs (init client)) in *.
  unfold Runs.enhanced_step.
  destruct (process_message_frame (Runs.q_world q) prev
              (Runs.q_user_input q) (Runs.q_user_id q) (Runs.q_use_openai q))
    as (H1 & H2 & H3 & H4 & H5 & H6 & H7 & H8).
  destruct IH as (I1 & I2 & I3 & I4 & I5 & I6 & I7 & I8).
  rewrite H1, H2, H3, H4, H5, H6, H7, H8, I1, I2, I3, I4, I5, I6, I7, I8.
  by rewrite map_app.
Qed.

Lemma enhanced_run_total_count (st : state) (qs : list Runs.request) :
  total_requests (analytics_ (Runs.enhanced_run st qs))
    = total_requests (analytics_ st) + length qs.
Proof.
  revert st. induction qs as [|q qs IH]; intros st; simpl; [lia|].
  rewrite IH. unfold Runs.enhanced_step.
  destruct (process_message_analytics (Runs.q_world q) st (Runs.q_user_input q)
              (Runs.q_user_id q) (Runs.q_use_openai q)) as (Ht & _).
  lia.
Qed.

(** X11: after any sequence of requests on a fresh enhanced chatbot,
    [get_analytics] reports as many requests as were made, a
    conversation count that is the number of requests capped at 100, one
    latency sample per request, and a generative usage percentage
    between 0 and 100. *)
Theorem enhanced_analytics_after_run (client : bool) (qs : list Runs.request) :
  let st := Runs.enhanced_run (init client) qs in
  let r := get_analytics st in
  rp_total_requests r = length qs
  /\ rp_openai_requests r + rp_core_requests r = length qs
  /\ rp_conversation_count r = min (length qs) 100
  /\ length (response_times (analytics_ st)) = length qs
  /\ (0 <= rp_openai_usage_percentage r <= 100)%Q.
Proof.
  intros st r.
  pose proof (enhanced_run_total_count (init client) qs) as Ht.
  pose proof (enhanced_run_total (init client) qs eq_refl) as Hs.
  destruct (enhanced_run_history (init client) qs) as (turns & Hm & Hh).
  destruct (enhanced_run_frame client qs) as (_ & _ & _ & _ & _ & _ & _ & Hrt).
  fold st in Ht, Hs, Hh, Hrt. simpl in Ht, Hs.
  assert (Hturns : length turns = length qs).
  { by rewrite <- (length_map t_user_input), Hm, length_map. }
  subst r. unfold get_analytics.
  cbn [rp_total_requests rp_openai_requests rp_core_requests rp_conversation_count
       rp_openai_usage_percentage].
  split; [done|]. split; [lia|]. split.
  { rewrite Hh. cbn [init analytics_ conversation_history zero_analytics].
    rewrite pushes_last_n by (simpl; lia). simpl.
    rewrite last_n_length_min, Hturns. unfold capacity. lia. }
  split; [by rewrite Hrt, length_map|].
  destruct (Nat.ltb_spec 0 (total_requests (analytics_ st))) as [Hpos|_]; [|done].
  unfold Qle, Qmult, Qdiv, Qinv, inject_Z. simpl.
  destruct (Z.of_nat (total_requests (analytics_ st))) as [|p|p] eqn:Hz; try lia.
  simpl. nia.
Qed.

(** X12: along any sequence of requests the enhanced chatbot never
    writes its per-intent distribution nor its satisfaction list, and
    never uses the baseline chatbot it owns: the distribution it reports
    stays empty, and the baseline chatbot and the corpus stay as they
    were built. *)
Theorem enhanced_run_untouched (client : bool) (qs : list Runs.request) :
  let st := Runs.enhanced_run (init client) qs in
  rp_intent_distribution (get_analytics st) = ∅
  /\ user_satisfaction (analytics_ st) = []
  /\ core_chatbot st = CustomerSupportChatbot.init
  /\ enhanced_responses st = _load_enhanced_responses DatasetIntegrator.get_training_data
  /\ get_dataset_statistics st
     = DatasetIntegrator.analyze_dataset DatasetIntegrator.get_training_data.
Proof.
  intros st.
  destruct (enhanced_run_frame client qs) as (Hc & _ & Htd & Her & _ & Hd & Hu & _).
  fold st in Hc, Htd, Her, Hd, Hu.
  unfold get_dataset_statistics, get_analytics. cbn [rp_intent_distribution].
  by rewrite Hd, Hu, Hc, Htd, Her.
Qed.

(** The reply of the local path. *)
Lemma process_core_reply (w : world) (st : state) (user_input : string)
    (user_id : option string) :
  fst (process_core w st user_input user_id)
    = (let '(intent, confidence, response_text) :=
         _find_best_intent_match st (Py.lower user_input) in
       Response response_text intent confidence (elapsed w)
         "core_enhanced" "dataset_trained").
Proof.
  unfold process_core. rewrite process_with_enhanced_dataset_never_falls_back.
  by destruct (_find_best_intent_match st (Py.lower user_input)) as [[i c] t].
Qed.

Lemma matcher_depends_on_corpus (st st' : state) (user_input : string) :
  enhanced_responses st = enhanced_responses st' ->
  intent_mapping st = intent_mapping st' ->
  _find_best_intent_match st user_input = _find_best_intent_match st' user_input.
Proof. unfold _find_best_intent_match. by intros -> ->. Qed.

Lemma process_message_local (w : world) (st : state) (user_input : string)
    (user_id : option string) (use_openai : bool) :
  use_openai && OpenAIChatbot.client (openai_chatbot st) = false ->
  process_message w st user_input user_id use_openai
    = process_core w (with_analytics st (bump_total (analytics_ st))) user_input user_id.
Proof.
  intros Hflag. unfold process_message.
  change (OpenAIChatbot.client (openai_chatbot (with_analytics st (bump_total (analytics_ st)))))
    with (OpenAIChatbot.client (openai_chatbot st)).
  by rewrite Hflag.
Qed.

Lemma process_core_counters (w : world) (st : state) (user_input : string)
    (user_id : option string) :
  let st' := snd (process_core w st user_input user_id) in
  total_requests (analytics_ st') = total_requests (analytics_ st)
  /\ openai_requests (analytics_ st') = openai_requests (analytics_ st)
  /\ core_requests (analytics_ st') = core_requests (analytics_ st) + 1
  /\ enhanced_responses st' = enhanced_responses st
  /\ intent_mapping st' = intent_mapping st.
Proof.
  unfold process_core. rewrite process_with_enhanced_dataset_never_falls_back.
  by destruct (_find_best_intent_match st (Py.lower user_input)) as [[i c] t].
Qed.

(** X13: when the generative strategy is switched off, or no client is
    configured, the reply is the corpus matcher's candidate for the
    lowered input, returned as it is: its text is the stored output of
    the winning example, with no random choice, and nothing but the
    measured latency depends on the moment of the call. *)
Theorem local_reply_is_matcher_candidate (w : world) (st : state)
    (user_input : string) (user_id : option string) (use_openai : bool) :
  if use_openai && OpenAIChatbot.client (openai_chatbot st)
  then True
  else
    fst (process_message w st user_input user_id use_openai)
      = (let '(intent, confidence, response_text) :=
           _find_best_intent_match st (Py.lower user_input) in
         Response response_text intent confidence (elapsed w)
           "core_enhanced" "dataset_trained").
Proof.
  destruct (use_openai && _) eqn:Hflag; [done|].
  rewrite (process_message_local _ _ _ _ _ Hflag), process_core_reply.
  by rewrite (matcher_depends_on_corpus _ st).
Qed.

(** One round of the self-test. *)
Lemma test_step_effect (clock : nat -> world) (results : test_results) (st : state)
    (test_input : string) :
  let passed :=
    gt (snd (fst (_find_best_intent_match st (Py.lower test_input)))) 0.3 in
  let '(results', st') := test_step clock (results, st) test_input in
  total_tests results' = total_tests results + 1
  /\ passed_tests results' = passed_tests results + (if passed then 1 else 0)
  /\ failed_tests results' = failed_tests results + (if passed then 0 else 1)
  /\ map td_input (test_details results') = map td_input (test_details results) ++ [test_input]
  /\ map td_status (test_details results')
     = map td_status (test_details results) ++ [if passed then "PASS" else "FAIL"]
  /\ total_requests (analytics_ st') = total_requests (analytics_ st) + 1
  /\ core_requests (analytics_ st') = core_requests (analytics_ st) + 1
  /\ openai_requests (analytics_ st') = openai_requests (analytics_ st)
  /\ enhanced_responses st' = enhanced_responses st
  /\ intent_mapping st' = intent_mapping st.
Proof.
  intros passed. unfold test_step.
  rewrite (process_message_local _ st _ _ false eq_refl).
  pose proof (process_core_reply (clock (total_tests results))
                (with_analytics st (bump_total (analytics_ st))) test_input None) as Hreply.
  pose proof (process_core_counters (clock (total_tests results))
                (with_analytics st (bump_total (analytics_ st))) test_input None)
    as (Ht & Ho & Hc & He & Hm).
  destruct (process_core _ _ test_input None) as [response st'].
  cbn [fst snd] in Hreply, Ht, Ho, Hc, He, Hm.
  assert (Hconf : confidence response
                  = snd (fst (_find_best_intent_match st (Py.lower test_input)))).
  { rewrite Hreply, (matcher_depends_on_corpus _ st) by done.
    by destruct (_find_best_intent_match st (Py.lower test_input)) as [[i c] t]. }
  rewrite Hconf. fold passed.
  cbn [total_tests passed_tests failed_tests test_details].
  rewrite !map_app. cbn in Ht, Ho, Hc, He, Hm.
  destruct passed; repeat split; try done; lia.
Qed.

(** The whole self-test, on any list of test inputs. *)
Lemma test_fold_effect (clock : nat -> world) (cases : list string)
    (results : test_results) (st : state) :
  let verdict := fun test_input =>
    gt (snd (fst (_find_best_intent_match st (Py.lower test_input)))) 0.3 in
  let '(results', st') := fold_left (test_step clock) cases (results, st) in
  total_tests results' = total_tests results + length cases
  /\ passed_tests results' = passed_tests results + length (List.filter verdict cases)
  /\ failed_tests results'
     = failed_tests results + (length cases - length (List.filter verdict cases))
  /\ map td_input (test_details results') = map td_input (test_details results) ++ cases
  /\ map td_status (test_details results')
     = map td_status (test_details results)
       ++ map (fun test_input => if verdict test_input then "PASS" else "FAIL") cases
  /\ total_requests (analytics_ st') = total_requests (analytics_ st) + length cases
  /\ core_requests (analytics_ st') = core_requests (analytics_ st) + length cases
  /\ openai_requests (analytics_ st') = openai_requests (analytics_ st)
  /\ enhanced_responses st' = enhanced_responses st
  /\ intent_mapping st' = intent_mapping st.
Proof.
  revert results st. induction cases as [|u cases IH]; intros results st verdict.
  - cbn. rewrite !app_nil_r. repeat split; lia.
  - cbn [fold_left].
    pose proof (test_step_effect clock results st u) as Hstep. cbn zeta in Hstep.
    destruct (test_step clock (results, st) u) as [results1 st1].
    destruct Hstep as (H1 & H2 & H3 & H4 & H4' & H5 & H6 & H7 & H8 & H9).
    specialize (IH results1 st1). cbn zeta in IH.
    destruct (fold_left (test_step clock) cases (results1, st1)) as [results' st'].
    destruct IH as (I1 & I2 & I3 & I4 & I4' & I5 & I6 & I7 & I8 & I9).
    assert (Hs : map (fun test_input =>
                        if gt (snd (fst (_find_best_intent_match st1 (Py.lower test_input)))) 0.3
                        then "PASS" else "FAIL") cases
                 = map (fun test_input => if verdict test_input then "PASS" else "FAIL") cases).
    { apply map_ext. intros a. subst verdict. cbn beta.
      by rewrite (matcher_depends_on_corpus st1 st). }
    rewrite Hs in I4'.
    assert (Hv : List.filter
                   (fun test_input =>
                      gt (snd (fst (_find_best_intent_match st1 (Py.lower test_input)))) 0.3)
                   cases
                 = List.filter verdict cases).
    { apply List.filter_ext. intros a. subst verdict. cbn beta.
      by rewrite (matcher_depends_on_corpus st1 st). }
    rewrite Hv in I2, I3.
    pose proof (List.filter_length_le verdict cases) as Hle.
    cbn [List.filter length map]. fold (verdict u) in H2, H3, H4'.
    rewrite I1, I2, I3, I4, I4', I5, I6, I7, I8, I9, H1, H2, H3, H4, H4', H5, H6, H7, H8, H9.
    rewrite <- !app_assoc.
    destruct (verdict u); cbn [length app]; repeat split; try done; lia.
Qed.

(** X14: the self-test sends its ten inputs through [process_message]
    with the generative strategy off, so it is counted as traffic: it
    raises [total_requests] and [core_requests] by ten and leaves
    [openai_requests] alone. It reports ten tests, each either passed or
    failed, a test passing when the matcher's confidence for the lowered
    input exceeds 0.3. *)
Theorem test_enhanced_responses_effect (clock : nat -> world) (st : state) :
  let verdict := fun test_input =>
    gt (snd (fst (_find_best_intent_match st (Py.lower test_input)))) 0.3 in
  let '(results, st') := test_enhanced_responses clock st in
  total_tests results = 10
  /\ passed_tests results = length (List.filter verdict test_cases)
  /\ passed_tests results + failed_tests results = 10
  /\ map td_input (test_details results) = test_cases
  /\ total_requests (analytics_ st') = total_requests (analytics_ st) + 10
  /\ core_requests (analytics_ st') = core_requests (analytics_ st) + 10
  /\ openai_requests (analytics_ st') = openai_requests (analytics_ st).
Proof.
  intros verdict. unfold test_enhanced_responses.
  pose proof (test_fold_effect clock test_cases (TestResults 0 0 0 []) st) as H.
  cbn zeta in H. fold verdict in H.
  destruct (fold_left (test_step clock) test_cases (TestResults 0 0 0 [], st))
    as [results st'].
  destruct H as (H1 & H2 & H3 & H4 & _ & H5 & H6 & H7 & _ & _).
  pose proof (List.filter_length_le verdict test_cases) as Hle.
  change (length test_cases) with 10 in *.
  cbn [total_tests passed_tests failed_tests test_details map app] in *.
  repeat split; try done; lia.
Qed.

(** X15: on the shipped corpus the self-test has a fixed verdict,
    whatever was asked before and whenever it runs: 6 tests pass and 4
    fail. *)
Theorem test_enhanced_responses_verdict (clock : nat -> world) (client : bool)
    (qs : list Runs.request) :
  let '(results, _) :=
    test_enhanced_responses clock (Runs.enhanced_run (init client) qs) in
  passed_tests results = 6 /\ failed_tests results = 4
  /\ map td_status (test_details results)
     = ["FAIL"; "PASS"; "PASS"; "FAIL"; "PASS"; "PASS"; "PASS"; "FAIL"; "FAIL"; "PASS"].
Proof.
  pose proof (test_fold_effect clock test_cases (TestResults 0 0 0 [])
                (Runs.enhanced_run (init client) qs)) as H.
  destruct (enhanced_run_frame client qs) as (_ & Hm & _ & He & _).
  cbn zeta in H, Hm, He. unfold test_enhanced_responses.
  generalize dependent (Runs.enhanced_run (init client) qs). intros st H Hm He.
  destruct (fold_left (test_step clock) test_cases (TestResults 0 0 0 [], st))
    as [results st'].
  destruct H as (_ & H2 & H3 & _ & H4 & _).
  assert (Hv : forall u,
    gt (snd (fst (_find_best_intent_match st (Py.lower u)))) 0.3
      = gt (snd (fst (_find_best_intent_match (init false) (Py.lower u)))) 0.3).
  { intros u. f_equal. f_equal. f_equal.
    apply matcher_depends_on_corpus; [exact He|exact Hm]. }
  rewrite (List.filter_ext _ _ Hv) in H2, H3.
  rewrite (map_ext _ (fun u =>
             if gt (snd (fst (_find_best_intent_match (init false) (Py.lower u)))) 0.3
             then "PASS" else "FAIL")) in H4
    by (intros u; rewrite Hv; reflexivity).
  rewrite H2, H3, H4. clear. vm_compute. repeat split.
Qed.

(** X16: the dashboard's "Clear History" button resets nothing that
    the dashboard shows. On any chatbot reached from a fresh one it
    only empties the adapter's own exchange history: the baseline
    chatbot it clears was never used, and the enhanced analytics
    (counters, latencies, conversation window) are not touched, so
    [get_analytics] reports the same as before. *)
Theorem clear_history_button_effect (client : bool) (qs : list Runs.request) :
  let st := Runs.enhanced_run (init client) qs in
  let st' := StreamlitApp.clear_history_button st in
  analytics_ st' = analytics_ st
  /\ get_analytics st' = get_analytics st
  /\ core_chatbot st' = core_chatbot st
  /\ openai_chatbot st' = OpenAIChatbot.State client []
  /\ enhanced_responses st' = enhanced_responses st.
Proof.
  intros st st'.
  destruct (enhanced_run_frame client qs) as (Hc & _ & _ & _ & Hcl & _).
  fold st in Hc, Hcl. subst st'. unfold StreamlitApp.clear_history_button.
  cbn [analytics_ core_chatbot openai_chatbot enhanced_responses].
  unfold OpenAIChatbot.clear_history. rewrite Hcl, Hc.
  repeat split.
Qed.

Lemma turn_dict_blank (float_str : Q -> string) (t : turn) :
  Py.format_value float_str (Py.dict_get (turn_dict t) "user" (Py.VStr "")) = ""
  /\ Py.format_value float_str (Py.dict_get (turn_dict t) "assistant" (Py.VStr "")) = "".
Proof. split; reflexivity. Qed.

Lemma conversation_text_turns (float_str : Q -> string) (l l' : list turn) :
  length l = length l' ->
  OpenAIChatbot.conversation_text float_str (map turn_dict l)
    = OpenAIChatbot.conversation_text float_str (map turn_dict l').
Proof.
  unfold OpenAIChatbot.conversation_text.
  set (f := fun (conv_text : string) (entry : list (string * Py.value)) => _).
  intros Hlen.
  assert (H : forall acc, fold_left f (map turn_dict l) acc
                          = fold_left f (map turn_dict l') acc); [|apply H].
  revert l' Hlen. induction l as [|t l IH]; intros [|t' l'] Hlen acc; try done.
  cbn [map fold_left].
  assert (Hf : f acc (turn_dict t) = f acc (turn_dict t')).
  { subst f. cbn beta.
    destruct (turn_dict_blank float_str t) as [-> ->].
    by destruct (turn_dict_blank float_str t') as [-> ->]. }
  rewrite Hf. apply IH. by injection Hlen.
Qed.

(** X17: the text [generate_conversation_summary] sends for summary
    does not contain the conversation. The recorded turns carry the keys
    [user_input] and [bot_response], while [generate_summary] reads
    [user] and [assistant] with an empty default; so two chatbots whose
    histories have the same length, whatever was said, make the same
    request and get the same summary. *)
Theorem generate_conversation_summary_ignores_content
    (w : world) (float_str : Q -> string) (st st' : state) :
  OpenAIChatbot.client (openai_chatbot st) = OpenAIChatbot.client (openai_chatbot st') ->
  length (conversation_history (analytics_ st))
    = length (conversation_history (analytics_ st')) ->
  generate_conversation_summary w float_str st
    = generate_conversation_summary w float_str st'.
Proof.
  intros Hc Hlen. unfold generate_conversation_summary, OpenAIChatbot.generate_summary.
  rewrite <- Hc.
  assert (Hlast : length (Py.last_n 10 (conversation_history (analytics_ st)))
                  = length (Py.last_n 10 (conversation_history (analytics_ st')))).
  { by rewrite !last_n_length_min, Hlen. }
  rewrite (conversation_text_turns float_str _ _ Hlast).
  destruct (conversation_history (analytics_ st)) as [|t h] eqn:Hh,
    (conversation_history (analytics_ st')) as [|t' h'] eqn:Hh'; try done.
  rewrite <- Hh, <- Hh' in *.
  destruct (Py.last_n 10 (conversation_history (analytics_ st))) as [|x l],
    (Py.last_n 10 (conversation_history (analytics_ st'))) as [|x' l']; done.
Qed.

(** Two one-turn histories with different texts, and a service that
    echoes what it is sent: the summaries are the same. *)
Lemma generate_conversation_summary_ignores_content_witness :
  let w := World 0 "t" 0 (fun messages =>
             Completed (match messages with
                        | [_; (_, conv_text)] => conv_text
                        | _ => ""
                        end)) in
  let said := fun user_input bot_response =>
    with_analytics (init true)
      (Analytics 1 0 1 ∅ [0%Q] [] [Turn "t" None user_input bot_response "core" 0.9]) in
  let st := said "Where is my order?" "Order 12 shipped." in
  let st' := said "I want a refund" "Refund issued." in
  OpenAIChatbot.client (openai_chatbot st) = OpenAIChatbot.client (openai_chatbot st')
  /\ length (conversation_history (analytics_ st))
     = length (conversation_history (analytics_ st'))
  /\ generate_conversation_summary w (fun _ => "") st
     = generate_conversation_summary w (fun _ => "") st'.
Proof.
  intros w said st st'.
  split; [reflexivity|]. split; [reflexivity|].
  exact (generate_conversation_summary_ignores_content w (fun _ => "") st st'
           eq_refl eq_refl).
Defined.

End Enhanced.

(** ** The baseline chatbot beyond its counters *)

Section Baseline.
Import Env CustomerSupportChatbot Invariants.

(** X18: [clear_history] brings the baseline chatbot back to the state
    [__init__] builds, whatever calls came before. *)
Theorem clear_history_restores_init (calls : list Runs.core_call) :
  Runs.core_run init (calls ++ [Runs.CoreClear]) = init
  /\ get_analytics (Runs.core_run init (calls ++ [Runs.CoreClear]))
     = get_analytics init.
Proof.
  assert (H : Runs.core_run init (calls ++ [Runs.CoreClear]) = init).
  { unfold Runs.core_run. rewrite fold_left_app. cbn [fold_left Runs.core_step].
    unfold clear_history. fold (Runs.core_run init calls).
    by rewrite core_run_intents. }
  by rewrite H.
Qed.

(** The records the baseline chatbot keeps agree with each other. *)
Lemma core_step_ledger (st : state) (c : Runs.core_call) :
  (length (conversation_history st) = total_requests (analytics_ st)
   /\ forall intent,
        default 0 (intent_counts (analytics_ st) !! intent)
          = length (filter (fun record => c_intent record = intent)
                      (conversation_history st))) ->
  let st' := Runs.core_step st c in
  length (conversation_history st') = total_requests (analytics_ st')
  /\ forall intent,
       default 0 (intent_counts (analytics_ st') !! intent)
         = length (filter (fun record => c_intent record = intent)
                     (conversation_history st')).
Proof.
  intros [Hl Hc]. destruct c as [w u s| |]; simpl; [|done|done].
  destruct (process_message_cases w st u s) as [-> | [(i & t & c & ->) | [-> _]]];
    [done| |done].
  simpl. split.
  - rewrite length_app. simpl. lia.
  - intros intent. rewrite filter_app, length_app, filter_cons, filter_nil.
    destruct (decide (i = intent)) as [->|Hne].
    + rewrite lookup_insert_eq. simpl. rewrite decide_True by done. simpl.
      rewrite <- Hc. done.
    + rewrite lookup_insert_ne by done. simpl. rewrite decide_False by done.
      simpl. rewrite Hc. lia.
Qed.

(** X19: the books of the baseline chatbot balance after any sequence
    of calls and for any catalog: the history holds one record per
    counted request and one latency sample per record, and the count
    kept for an intent is the number of records of the history that
    carry it. *)
Theorem baseline_ledger (catalog : list (string * intent_data))
    (calls : list Runs.core_call) (intent : string) :
  let st := Runs.core_run (State [] zero_analytics catalog) calls in
  length (conversation_history st) = total_requests (analytics_ st)
  /\ length (response_times (analytics_ st)) = total_requests (analytics_ st)
  /\ default 0 (intent_counts (analytics_ st) !! intent)
     = length (filter (fun record => c_intent record = intent) (conversation_history st)).
Proof.
  intros st.
  assert (H : length (conversation_history st) = total_requests (analytics_ st)
              /\ forall intent,
                   default 0 (intent_counts (analytics_ st) !! intent)
                     = length (filter (fun record => c_intent record = intent)
                                 (conversation_history st))).
  { subst st. induction calls as [|c calls IH] using rev_ind; [done|].
    unfold Runs.core_run in *. rewrite fold_left_app. cbn [fold_left].
    by apply core_step_ledger. }
  destruct H as [Hl Hc].
  destruct (core_run_counted _ calls (init_counted catalog)) as [_ Hr].
  fold st in Hr. done.
Qed.

Lemma dict_lookup_key {V : Type} (d : list (string * V)) (k : string) :
  k ∈ map fst d -> is_Some (Py.dict_lookup d k).
Proof.
  induction d as [|[k' v] d IH]; simpl.
  - intros H. by apply elem_of_nil in H.
  - intros H. destruct (String.eqb_spec k' k) as [->|Hne]; [eauto|].
    apply elem_of_cons in H as [->|H]; [done|]. by apply IH.
Qed.

(** X20: on a catalog that gives every intent a response, a request
    that is not blank is always answered from the candidates: the reply
    carries the classifier's intent and confidence, its text is one of
    the responses of that intent or, when the intent is the "fallback"
    sentinel, one of the fallback texts, never the error text; and the
    request is recorded with exactly what was replied. *)
Theorem baseline_reply_from_catalog (w : world) (st : state)
    (user_input : string) (session_id : option string) :
  stocked (intents st) ->
  Py.strip user_input <> "" ->
  let '(r, st') := process_message w st user_input session_id in
  (intent r, confidence r) = _find_best_intent (intents st) user_input
  /\ response_time r = elapsed w
  /\ match Py.dict_lookup (intents st) (intent r) with
     | Some data => text r ∈ responses data
     | None => intent r = "fallback" /\ text r ∈ fallback_responses
     end
  /\ st' = _record_interaction w st user_input (intent r) (text r) (confidence r)
             (elapsed w) session_id.
Proof.
  intros Hst Hne. unfold process_message.
  destruct (Py.strip user_input) as [|c s] eqn:Hs; [done|]. cbn [Py.truthy_str negb].
  assert (Hsentinel :
    is_Some (Py.dict_lookup (intents st) (fst (_find_best_intent (intents st) user_input)))
    \/ fst (_find_best_intent (intents st) user_input) = "fallback").
  { unfold _find_best_intent.
    destruct (best_intent_scan (intents st) (Py.lower user_input))
      as [[-> _] | (pre & item & post & Hcat & -> & _)]; [by right|].
    left. simpl. apply dict_lookup_key. rewrite Hcat, map_app.
    apply elem_of_app. right. apply list_elem_of_here. }
  destruct (_find_best_intent (intents st) user_input) as [i conf].
  cbn [fst] in Hsentinel.
  unfold _generate_response, _get_fallback_response.
  destruct (Py.dict_lookup (intents st) i) as [data|] eqn:Hl.
  - apply dict_lookup_elem in Hl as Hin.
    unfold stocked in Hst. rewrite Forall_forall in Hst.
    specialize (Hst _ Hin). simpl in Hst.
    destruct (choice_nonempty (draw w) (responses data) Hst) as (x & -> & Hx).
    cbn. by rewrite Hl.
  - destruct (choice_nonempty (draw w) fallback_responses) as (x & -> & Hx); [done|].
    cbn. rewrite Hl. destruct Hsentinel as [[? ?] | ->]; done.
Qed.

Lemma baseline_reply_from_catalog_witness :
  let w := Runs.failing_world 1 "t" 0 in
  stocked (intents init)
  /\ Py.strip "track my order" <> ""
  /\ let '(r, st') := process_message w init "track my order" None in
     intent r = "order_status"
     /\ text r = "To check your order status, I'll need your order number. What's your order number?"
     /\ total_requests (analytics_ st') = 1.
Proof.
  intros w.
  assert (Hs : stocked (intents init)) by apply initialize_intents_stocked.
  assert (Hn : Py.strip "track my order" <> "") by (vm_compute; discriminate).
  split; [exact Hs|]. split; [exact Hn|].
  pose proof (baseline_reply_from_catalog w init "track my order" None Hs Hn) as H.
  destruct (process_message w init "track my order" None) as [r st'] eqn:Hp.
  destruct H as (_ & _ & _ & ->).
  vm_compute in Hp. injection Hp as <- _. repeat split.
Defined.

Lemma lower_ascii_idempotent (c : ascii) :
  Py.lower_ascii (Py.lower_ascii c) = Py.lower_ascii c.
Proof. destruct c as [[] [] [] [] [] [] [] []]; reflexivity. Qed.

Lemma lower_idempotent (s : string) : Py.lower (Py.lower s) = Py.lower s.
Proof.
  induction s as [|c s IH]; simpl; [done|]. by rewrite lower_ascii_idempotent, IH.
Qed.

(** X21: classification does not see letter case: the keyword
    classifier and the local path of the enhanced chatbot give the same
    intent, confidence and (for the local path) text for an input and
    for its lowered form. *)
Theorem classification_ignores_case (w : world)
    (catalog : list (string * intent_data)) (st : EnhancedChatbotWithDataset.state)
    (user_input : string) :
  _find_best_intent catalog (Py.lower user_input) = _find_best_intent catalog user_input
  /\ fst (EnhancedChatbotWithDataset._process_with_enhanced_dataset w st (Py.lower user_input))
     = fst (EnhancedChatbotWithDataset._process_with_enhanced_dataset w st user_input).
Proof.
  split.
  - unfold _find_best_intent. by rewrite lower_idempotent.
  - rewrite !process_with_enhanced_dataset_never_falls_back.
    by rewrite lower_idempotent.
Qed.

(** ** Zero confidence on the two entry points *)

(** On the shipped catalog the baseline entry point answers with
    confidence 0.0 exactly when it resolves to the ["fallback"] sentinel
    or the input is blank. *)
Lemma core_zero_confidence (w : world) (st : state)
    (user_input : string) (session_id : option string) :
  intents st = _initialize_intents ->
  let r := fst (process_message w st user_input session_id) in
  (confidence r == 0)%Q <-> (intent r = "fallback" \/ Py.strip user_input = "").
Proof.
  intros Hi. unfold process_message. rewrite Hi.
  destruct (Py.strip user_input) as [|c s] eqn:Hs; cbn [Py.truthy_str negb].
  { simpl. split; [by right|done]. }
  pose proof (proj1 (proj2 strategy_confidence) user_input) as Hz.
  destruct (_find_best_intent _initialize_intents user_input) as [i q].
  destruct (generate_response_returns w _initialize_intents i user_input
              initialize_intents_stocked) as [t ->].
  simpl. split.
  - intros H. left. by apply Hz.
  - intros [H | H]; [by apply Hz|done].
Qed.

(** C6 (the code at the failing inputs): every result of either
    strategy and of either entry point has its confidence in [0.0, 1.0].
    The keyword classifier on the shipped catalog returns 0.0 exactly
    with the ["fallback"] sentinel, and the baseline entry point, in
    every state it can reach, answers with confidence 0.0 exactly when
    the request resolves to that sentinel or its input is blank. The
    enhanced entry point with the generative strategy disabled breaks
    the equivalence both ways: the empty input is answered as a greeting
    with confidence 0.9, and the non-empty input ["xyz"] is answered
    with confidence 0.0 under no intent at all and the source tag
    ["core_enhanced"]. *)
Theorem enhanced_zero_confidence_mismatch :
  (forall (catalog : list (string * intent_data)) (user_input : string),
     (0 <= snd (_find_best_intent catalog user_input) <= 1)%Q)
  /\ (forall user_input : string,
        let '(best_intent, best_confidence) :=
          _find_best_intent _initialize_intents user_input in
        (best_confidence == 0)%Q <-> best_intent = "fallback")
  /\ (forall (st : EnhancedChatbotWithDataset.state) (user_input : string),
        let '(_, best_confidence, _) :=
          EnhancedChatbotWithDataset._find_best_intent_match st user_input in
        (0 <= best_confidence <= 1)%Q)
  /\ (forall (w : world) (st : state) (user_input : string) (session_id : option string),
        (0 <= confidence (fst (process_message w st user_input session_id)) <= 1)%Q)
  /\ (forall (w : world) (st : EnhancedChatbotWithDataset.state) (user_input : string)
             (user_id : option string) (use_openai : bool),
        (0 <= EnhancedChatbotWithDataset.confidence
                (fst (EnhancedChatbotWithDataset.process_message
                        w st user_input user_id use_openai)) <= 1)%Q)
  /\ (forall (calls : list Runs.core_call) (w : world)
             (user_input : string) (session_id : option string),
        let r := fst (process_message w (Runs.core_run init calls) user_input session_id) in
        (confidence r == 0)%Q <-> (intent r = "fallback" \/ Py.strip user_input = ""))
  /\ (forall w : world,
        let respond := fun user_input =>
          fst (EnhancedChatbotWithDataset.process_message
                 w (EnhancedChatbotWithDataset.init false) user_input None false) in
        (EnhancedChatbotWithDataset.confidence (respond "") = 0.9%Q
         /\ EnhancedChatbotWithDataset.intent (respond "") = Some "greeting")
        /\ (EnhancedChatbotWithDataset.confidence (respond "xyz") = 0.0%Q
            /\ EnhancedChatbotWithDataset.intent (respond "xyz") = None
            /\ EnhancedChatbotWithDataset.source (respond "xyz") = "core_enhanced")
        /\ ~ (forall user_input : string,
                (EnhancedChatbotWithDataset.confidence (respond user_input) == 0)%Q
                <-> (EnhancedChatbotWithDataset.intent (respond user_input) = Some "fallback"
                     \/ Py.strip user_input = ""))).
Proof.
  destruct strategy_confidence as (Hk & Hs & Hm & He & Hb).
  split.
  { intros catalog user_input. specialize (Hk catalog user_input).
    destruct (_find_best_intent catalog user_input). apply Hk. }
  split; [exact Hs|]. split.
  { intros st user_input. specialize (Hm st user_input).
    destruct (EnhancedChatbotWithDataset._find_best_intent_match st user_input) as [[? ?] ?].
    apply Hm. }
  split; [exact Hb|]. split; [exact He|]. split.
  - intros calls w user_input session_id.
    apply core_zero_confidence. by rewrite core_run_intents.
  - intros w respond.
    assert (H9 : EnhancedChatbotWithDataset.confidence (respond "") = 0.9%Q)
      by (vm_compute; reflexivity).
    split; [split; [exact H9|vm_compute; reflexivity]|].
    split; [vm_compute; repeat split|].
    intros H. destruct (H "") as [_ Hz].
    specialize (Hz (or_intror eq_refl)). rewrite H9 in Hz. done.
Qed.

(** The baseline chatbot on the input ["xyz"]: the confidence is 0.0,
    hence the result carries the sentinel intent. *)
Lemma enhanced_zero_confidence_mismatch_witness :
  let r := fst (process_message (Runs.failing_world 0 "t" 0)
                  (Runs.core_run init []) "xyz" None) in
  (confidence r == 0)%Q
  /\ (intent r = "fallback" \/ Py.strip "xyz" = "").
Proof.
  assert (Hz : (confidence (fst (process_message (Runs.failing_world 0 "t" 0)
                                   (Runs.core_run init []) "xyz" None)) == 0)%Q)
    by (vm_compute; reflexivity).
  split; [exact Hz|].
  destruct enhanced_zero_confidence_mismatch as (_ & _ & _ & _ & _ & Hb & _).
  exact (proj1 (Hb [] (Runs.failing_world 0 "t" 0) "xyz" None) Hz).
Defined.

End Baseline.
